(** * CodeChase: rooms, levels, submissions and their row-level policies

    A shallow embedding of
    - [supabase/migrations/20250213052139_polished_plain.sql] and the later
      migration that adds the registration policy on [public.users]
      (tables, constraints, row-level security),
    - [AdminDashboard.toggleRoomStatus],
    - [Dashboard.fetchData] (leaderboard query) and [Dashboard.handleJoinRoom],
    - [Room.runTests].

    The datastore is modelled as five lists of rows in storage order.  Every
    request of the browser client is executed for an acting identity
    ([auth.uid()], absent for the anonymous role) and is subject to the
    row-level policies of the table it touches, with the rules of the
    database: no applicable policy means no access, the sub-selects of a
    policy are themselves subject to the policies of the tables they read,
    and a statement takes effect only if the constraints of the schema hold
    afterwards.  The pages are modelled as functions on the stored state and
    on the part of the page state they use; a request never throws, its
    refusal is a value in the response.  The room page runs submitted code
    unconfined; its run is followed as long as that code does nothing but
    compute. *)

From Stdlib Require Import String Ascii List ZArith Bool Lia.
Import ListNotations.
Local Open Scope string_scope.
Local Open Scope bool_scope.

Set Implicit Arguments.

(** ** Column types *)

(** [uuid] columns; the client handles them as strings. *)
Definition uuid := string.

(** [timestamptz] columns, as an instant on the server clock. *)
Definition timestamptz := Z.

(** One element of the [test_cases] jsonb array of a level. *)
Record test_case := {
  input : string;
  expected : string;
  description : string
}.

(** ** Tables

    One module per table of schema [public]; a nullable column is an
    [option]. *)

Module users.
Record row := mk {
  id : uuid;                          (* PRIMARY KEY, REFERENCES auth.users *)
  username : string;                  (* UNIQUE NOT NULL *)
  points : option Z;                  (* DEFAULT 0 *)
  current_level : option Z;           (* DEFAULT 1 *)
  created_at : option timestamptz     (* DEFAULT now() *)
}.
End users.

Module rooms.
Record row := mk {
  id : uuid;                          (* PRIMARY KEY DEFAULT gen_random_uuid() *)
  code : string;                      (* UNIQUE NOT NULL *)
  name : string;                      (* NOT NULL *)
  status : string;                    (* NOT NULL DEFAULT 'waiting' *)
  created_by : uuid;                  (* REFERENCES public.users NOT NULL *)
  created_at : option timestamptz
}.

(** The patch [{ status: s }] of an update request. *)
Definition set_status (s : string) (r : row) : row :=
  mk (id r) (code r) (name r) s (created_by r) (created_at r).
End rooms.

Module room_participants.
Record row := mk {
  id : uuid;                          (* PRIMARY KEY DEFAULT gen_random_uuid() *)
  room_id : uuid;                     (* REFERENCES public.rooms NOT NULL *)
  user_id : uuid;                     (* REFERENCES public.users NOT NULL *)
  joined_at : option timestamptz      (* DEFAULT now() *)
}.                                    (* UNIQUE(room_id, user_id) *)
End room_participants.

Module levels.
(** The columns of [CREATE TABLE public.levels], and [status].  The latter
    is the column that the pages name ([interface Level] of the admin page,
    the seed rows of [createRoom], the filters of [toggleRoomStatus] and
    [fetchRoomData]); the migrations do not declare it.  It is kept here so
    that the requests of the pages can be written down as they are sent.
    Under the policies of the migrations every such request is refused or
    acts on no row, with or without the column. *)
Record row := mk {
  id : uuid;                          (* PRIMARY KEY DEFAULT gen_random_uuid() *)
  room_id : uuid;                     (* REFERENCES public.rooms NOT NULL *)
  title : string;
  description : string;
  initial_code : string;
  test_cases : list test_case;        (* jsonb NOT NULL *)
  movie_reference : string;
  difficulty : string;
  status : string;
  created_at : option timestamptz
}.

(** The patch [{ status: s }] of an update request. *)
Definition set_status (s : string) (r : row) : row :=
  mk (id r) (room_id r) (title r) (description r) (initial_code r)
     (test_cases r) (movie_reference r) (difficulty r) s (created_at r).
End levels.

Module submissions.
Record row := mk {
  id : uuid;                          (* PRIMARY KEY DEFAULT gen_random_uuid() *)
  user_id : uuid;                     (* REFERENCES public.users NOT NULL *)
  level_id : uuid;                    (* REFERENCES public.levels NOT NULL *)
  code : string;                      (* NOT NULL *)
  status : string;                    (* NOT NULL *)
  points : option Z;                  (* DEFAULT 0 *)
  submitted_at : option timestamptz   (* DEFAULT now() *)
}.
End submissions.

(** The stored state: the five tables, rows in storage order. *)
Record Db := {
  public_users : list users.row;
  public_rooms : list rooms.row;
  public_room_participants : list room_participants.row;
  public_levels : list levels.row;
  public_submissions : list submissions.row
}.

Definition with_rooms (t : list rooms.row) (db : Db) : Db :=
  {| public_users := public_users db;
     public_rooms := t;
     public_room_participants := public_room_participants db;
     public_levels := public_levels db;
     public_submissions := public_submissions db |}.

Definition with_room_participants (t : list room_participants.row) (db : Db) : Db :=
  {| public_users := public_users db;
     public_rooms := public_rooms db;
     public_room_participants := t;
     public_levels := public_levels db;
     public_submissions := public_submissions db |}.

Definition with_levels (t : list levels.row) (db : Db) : Db :=
  {| public_users := public_users db;
     public_rooms := public_rooms db;
     public_room_participants := public_room_participants db;
     public_levels := t;
     public_submissions := public_submissions db |}.

Definition with_submissions (t : list submissions.row) (db : Db) : Db :=
  {| public_users := public_users db;
     public_rooms := public_rooms db;
     public_room_participants := public_room_participants db;
     public_levels := public_levels db;
     public_submissions := t |}.

(** The tables by name, for requests and for the sub-selects of policy
    expressions. *)
Inductive table := Users | Rooms | RoomParticipants | Levels | Submissions.

Definition table_eqb (a b : table) : bool :=
  match a, b with
  | Users, Users | Rooms, Rooms | RoomParticipants, RoomParticipants
  | Levels, Levels | Submissions, Submissions => true
  | _, _ => false
  end.

Definition row_of (t : table) : Type :=
  match t with
  | Users => users.row
  | Rooms => rooms.row
  | RoomParticipants => room_participants.row
  | Levels => levels.row
  | Submissions => submissions.row
  end.

(** [.from(t)] *)
Definition from (t : table) (db : Db) : list (row_of t) :=
  match t with
  | Users => public_users db
  | Rooms => public_rooms db
  | RoomParticipants => public_room_participants db
  | Levels => public_levels db
  | Submissions => public_submissions db
  end.

Definition store (t : table) : list (row_of t) -> Db -> Db :=
  match t with
  | Users => fun rows db =>
      {| public_users := rows;
         public_rooms := public_rooms db;
         public_room_participants := public_room_participants db;
         public_levels := public_levels db;
         public_submissions := public_submissions db |}
  | Rooms => with_rooms
  | RoomParticipants => with_room_participants
  | Levels => with_levels
  | Submissions => with_submissions
  end.

Definition table_name (t : table) : string :=
  match t with
  | Users => "users"
  | Rooms => "rooms"
  | RoomParticipants => "room_participants"
  | Levels => "levels"
  | Submissions => "submissions"
  end.

(** ** Row-level security *)

(** The acting identity of a request: [auth.uid()], NULL for the anonymous
    role.  A request that carries an identity runs as role [authenticated]. *)
Definition session := option uuid.

Inductive role := anon | authenticated.

Definition current_role (s : session) : role :=
  match s with Some _ => authenticated | None => anon end.

Inductive command := SELECT | INSERT | UPDATE | DELETE.

Definition command_eqb (a b : command) : bool :=
  match a, b with
  | SELECT, SELECT | INSERT, INSERT | UPDATE, UPDATE | DELETE, DELETE => true
  | _, _ => false
  end.

Definition role_eqb (a b : role) : bool :=
  match a, b with
  | anon, anon | authenticated, authenticated => true
  | _, _ => false
  end.

(** [auth.uid() = c] for a NOT NULL uuid column [c]: with no identity the
    comparison is NULL, which a policy treats as false. *)
Definition auth_uid_eq (s : session) (c : uuid) : bool :=
  match s with
  | Some u => u =? c
  | None => false
  end.

(** What the sub-selects of a policy expression find in each table of
    schema [public]: they run for the acting identity, so they see the
    rows that table's own SELECT policies let through. *)
Definition schema := forall t : table, list (row_of t).

(** [CREATE POLICY polname ON t FOR polcmd TO polroles USING/WITH CHECK (polqual)].
    [polroles = None] is a policy without TO clause (all roles).  [polqual] is
    the USING expression of a SELECT policy and the WITH CHECK expression of
    an INSERT policy; [polsubselects] lists the tables its sub-selects read. *)
Record policy (R : Type) := {
  polname : string;
  polcmd : command;
  polroles : option role;
  polsubselects : list table;
  polqual : schema -> session -> R -> bool
}.

(** The policies in force, per table.  Row-level security is enabled on all
    five tables ([ALTER TABLE ... ENABLE ROW LEVEL SECURITY]). *)
Record policies := {
  on_users : list (policy users.row);
  on_rooms : list (policy rooms.row);
  on_room_participants : list (policy room_participants.row);
  on_levels : list (policy levels.row);
  on_submissions : list (policy submissions.row)
}.

Definition policies_on (pol : policies) (t : table) : list (policy (row_of t)) :=
  match t with
  | Users => on_users pol
  | Rooms => on_rooms pol
  | RoomParticipants => on_room_participants pol
  | Levels => on_levels pol
  | Submissions => on_submissions pol
  end.

Definition applies {R} (p : policy R) (c : command) (s : session) : bool :=
  command_eqb (polcmd p) c &&
  match polroles p with
  | None => true
  | Some r => role_eqb r (current_role s)
  end.

(** Permissive policies are combined with OR; with no applicable policy the
    row is neither visible nor writable (default deny). *)
Definition permitted {R} (ps : list (policy R)) (c : command)
    (public : schema) (s : session) (r : R) : bool :=
  existsb (fun p => applies p c s && polqual p public s r) ps.

(** The row test that row-level security attaches to a statement on [t]
    that needs the policies of every command in [cs] (a plain read: SELECT;
    an insert: INSERT; an update or delete with a WHERE clause: that command
    and SELECT).

    When the applicable policies contain sub-selects, these are statements
    of the acting identity themselves and get the SELECT policies of the
    tables they read, and so on.  [active] holds the tables whose policies
    are being expanded; meeting one of them again is the error
    "infinite recursion detected in policy for relation", reported as
    [None], and the statement fails.  [fuel] bounds the depth of the
    expansion; every level adds a table to [active] and there are five. *)
Fixpoint row_security (pol : policies) (s : session) (db : Db) (fuel : nat)
    (active : list table) (t : table) (cs : list command)
    : option (row_of t -> bool) :=
  match fuel with
  | 0 => None
  | S fuel' =>
      let used :=
        filter (fun p => existsb (fun c => applies p c s) cs) (policies_on pol t) in
      let sub (t' : table) :=
        row_security pol s db fuel' (t :: active) t' [SELECT] in
      let public : schema := fun t' =>
        match sub t' with
        | Some visible => filter visible (from t' db)
        | None => []
        end in
      let test (r : row_of t) :=
        forallb (fun c => permitted (policies_on pol t) c public s r) cs in
      match flat_map (@polsubselects _) used with
      | [] => Some test
      | subselects =>
          if existsb (table_eqb t) active then None
          else if forallb (fun t' => match sub t' with Some _ => true | None => false end)
                          subselects
          then Some test
          else None
      end
  end.

(** The row test of a statement of the client. *)
Definition rls (pol : policies) (s : session) (db : Db) (t : table)
    (cs : list command) : option (row_of t -> bool) :=
  row_security pol s db 6 [] t cs.

(** *** The policies of the migrations *)

Definition users_can_read_their_own_data : policy users.row :=
  {| polname := "Users can read their own data";
     polcmd := SELECT;
     polroles := None;
     polsubselects := [];
     polqual := fun _ s r => auth_uid_eq s (users.id r) |}.

Definition users_can_insert_their_own_data : policy users.row :=
  {| polname := "Users can insert their own data during registration";
     polcmd := INSERT;
     polroles := Some authenticated;
     polsubselects := [];
     polqual := fun _ s r => auth_uid_eq s (users.id r) |}.

Definition anyone_can_read_rooms : policy rooms.row :=
  {| polname := "Anyone can read rooms";
     polcmd := SELECT;
     polroles := Some authenticated;
     polsubselects := [];
     polqual := fun _ _ _ => true |}.

Definition admin_can_create_rooms : policy rooms.row :=
  {| polname := "Admin can create rooms";
     polcmd := INSERT;
     polroles := Some authenticated;
     polsubselects := [];
     polqual := fun _ s r => auth_uid_eq s (rooms.created_by r) |}.

(** [USING (EXISTS (SELECT 1 FROM public.room_participants
            WHERE room_id = room_participants.room_id
              AND user_id = auth.uid()))]
    on [public.room_participants].  The sub-select ranges over the table of
    the same name without an alias, so inside it both [room_id] and
    [room_participants.room_id] name the column of the sub-select's own row
    (the innermost FROM item wins); the row under test, bound here as
    [_protected], is not referred to. *)
Definition participants_can_view_room_details : policy room_participants.row :=
  {| polname := "Participants can view room details";
     polcmd := SELECT;
     polroles := Some authenticated;
     polsubselects := [RoomParticipants];
     polqual := fun public s _protected =>
       existsb (fun room_participants =>
                  (room_participants.room_id room_participants
                     =? room_participants.room_id room_participants)
                  && auth_uid_eq s (room_participants.user_id room_participants))
               (public RoomParticipants) |}.

Definition users_can_join_rooms : policy room_participants.row :=
  {| polname := "Users can join rooms";
     polcmd := INSERT;
     polroles := Some authenticated;
     polsubselects := [];
     polqual := fun _ s r => auth_uid_eq s (room_participants.user_id r) |}.

(** [USING (EXISTS (SELECT 1 FROM public.room_participants
            WHERE room_id = levels.room_id AND user_id = auth.uid()))]
    on [public.levels]: here the qualified name refers to the level under
    test. *)
Definition participants_can_view_levels : policy levels.row :=
  {| polname := "Participants can view levels";
     polcmd := SELECT;
     polroles := Some authenticated;
     polsubselects := [RoomParticipants];
     polqual := fun public s levels =>
       existsb (fun room_participants =>
                  (room_participants.room_id room_participants
                     =? levels.room_id levels)
                  && auth_uid_eq s (room_participants.user_id room_participants))
               (public RoomParticipants) |}.

Definition users_can_submit_solutions : policy submissions.row :=
  {| polname := "Users can submit solutions";
     polcmd := INSERT;
     polroles := Some authenticated;
     polsubselects := [];
     polqual := fun _ s r => auth_uid_eq s (submissions.user_id r) |}.

Definition users_can_view_their_submissions : policy submissions.row :=
  {| polname := "Users can view their submissions";
     polcmd := SELECT;
     polroles := Some authenticated;
     polsubselects := [];
     polqual := fun _ s r => auth_uid_eq s (submissions.user_id r) |}.

Definition migration_policies : policies :=
  {| on_users := [users_can_read_their_own_data; users_can_insert_their_own_data];
     on_rooms := [anyone_can_read_rooms; admin_can_create_rooms];
     on_room_participants := [participants_can_view_room_details; users_can_join_rooms];
     on_levels := [participants_can_view_levels];
     on_submissions := [users_can_submit_solutions; users_can_view_their_submissions] |}.

(** ** Constraints of the schema *)

(** [UNIQUE]/[PRIMARY KEY]: no two rows agree on the key, [same] being the
    comparison of the key columns. *)
Fixpoint unique_by {R} (same : R -> R -> bool) (rows : list R) : bool :=
  match rows with
  | [] => true
  | r :: rest => negb (existsb (same r) rest) && unique_by same rest
  end.

Definition unique_on {R} (key : R -> string) : list R -> bool :=
  unique_by (fun r r' => key r =? key r').

(** [REFERENCES]: every key of [rows] is the key of some row of [target]. *)
Definition references {R T} (col : R -> uuid) (rows : list R)
    (id : T -> uuid) (target : list T) : bool :=
  forallb (fun r => existsb (fun t => id t =? col r) target) rows.

(** The comparison behind [UNIQUE(room_id, user_id)]. *)
Definition same_room_and_user (p p' : room_participants.row) : bool :=
  (room_participants.room_id p =? room_participants.room_id p')
  && (room_participants.user_id p =? room_participants.user_id p').

(** The named constraints, each with its truth value in [db].
    [users.id REFERENCES auth.users] points outside schema [public] and is
    the identity provider's business. *)
Definition constraints (db : Db) : list (string * bool) :=
  [ ("users_pkey", unique_on users.id (public_users db));
    ("users_username_key", unique_on users.username (public_users db));
    ("rooms_pkey", unique_on rooms.id (public_rooms db));
    ("rooms_code_key", unique_on rooms.code (public_rooms db));
    ("rooms_created_by_fkey",
       references rooms.created_by (public_rooms db) users.id (public_users db));
    ("room_participants_pkey",
       unique_on room_participants.id (public_room_participants db));
    ("room_participants_room_id_fkey",
       references room_participants.room_id (public_room_participants db)
                  rooms.id (public_rooms db));
    ("room_participants_user_id_fkey",
       references room_participants.user_id (public_room_participants db)
                  users.id (public_users db));
    ("room_participants_room_id_user_id_key",
       unique_by same_room_and_user (public_room_participants db));
    ("levels_pkey", unique_on levels.id (public_levels db));
    ("levels_room_id_fkey",
       references levels.room_id (public_levels db) rooms.id (public_rooms db));
    ("submissions_pkey", unique_on submissions.id (public_submissions db));
    ("submissions_user_id_fkey",
       references submissions.user_id (public_submissions db)
                  users.id (public_users db));
    ("submissions_level_id_fkey",
       references submissions.level_id (public_submissions db)
                  levels.id (public_levels db)) ].

Definition violated (db : Db) : list string :=
  map fst (filter (fun c => negb (snd c)) (constraints db)).

Definition consistent (db : Db) : bool :=
  forallb snd (constraints db).


(** ** Requests of the client *)

(** What a request reports back in its [error] field. *)
Inductive pg_error :=
| row_level_security (relation : string)      (* new row violates the policy *)
| infinite_recursion_in_policy
| constraint_violation (names : list string).

(** A write request.  [Insert] carries the row with its column defaults
    ([gen_random_uuid()], [now()]) already drawn.  [Update] and [Delete]
    carry the filter chain ([.eq(...)]) and the optional [.limit(n)]. *)
Inductive request :=
| Insert (t : table) (r : row_of t)
| Update (t : table) (filter : row_of t -> bool) (limit : option nat)
         (patch : row_of t -> row_of t)
| Delete (t : table) (filter : row_of t -> bool) (limit : option nat).

(** Patch the rows selected by [target], at most [limit] of them.  Which of
    the selected rows a limited statement without an order takes is up to
    the database; here they are taken as the list has them.  No statement
    below depends on that choice: what is used of an update is that it
    leaves every row in place, unchanged or patched. *)
Fixpoint update_rows {R} (target : R -> bool) (limit : option nat)
    (patch : R -> R) (rows : list R) : list R :=
  match rows with
  | [] => []
  | r :: rest =>
      if target r then
        match limit with
        | None => patch r :: update_rows target None patch rest
        | Some 0 => r :: rest
        | Some (S n) => patch r :: update_rows target (Some n) patch rest
        end
      else r :: update_rows target limit patch rest
  end.

Fixpoint delete_rows {R} (target : R -> bool) (limit : option nat)
    (rows : list R) : list R :=
  match rows with
  | [] => []
  | r :: rest =>
      if target r then
        match limit with
        | None => delete_rows target None rest
        | Some 0 => r :: rest
        | Some (S n) => delete_rows target (Some n) rest
        end
      else r :: delete_rows target limit rest
  end.

(** The rows an update touches. *)
Definition affected {R} (target : R -> bool) (limit : option nat)
    (rows : list R) : list R :=
  match limit with
  | None => filter target rows
  | Some n => firstn n (filter target rows)
  end.

(** A statement takes effect only if the constraints hold afterwards. *)
Definition commit (db db' : Db) : Db * option pg_error :=
  match violated db' with
  | [] => (db', None)
  | names => (db, Some (constraint_violation names))
  end.

(** Executes one write request for the acting identity; returns the new
    state and the [error] field of the response.  A patched row must pass
    the policies like the row it replaces. *)
Definition execute (pol : policies) (s : session) (q : request) (db : Db)
    : Db * option pg_error :=
  match q with
  | Insert t r =>
      match rls pol s db t [INSERT] with
      | None => (db, Some infinite_recursion_in_policy)
      | Some allowed =>
          if allowed r
          then commit db (store t (from t db ++ [r]) db)
          else (db, Some (row_level_security (table_name t)))
      end
  | Update t filter limit patch =>
      match rls pol s db t [UPDATE; SELECT] with
      | None => (db, Some infinite_recursion_in_policy)
      | Some allowed =>
          let target r := filter r && allowed r in
          if forallb (fun r => allowed (patch r)) (affected target limit (from t db))
          then commit db (store t (update_rows target limit patch (from t db)) db)
          else (db, Some (row_level_security (table_name t)))
      end
  | Delete t filter limit =>
      match rls pol s db t [DELETE; SELECT] with
      | None => (db, Some infinite_recursion_in_policy)
      | Some allowed =>
          let target r := filter r && allowed r in
          commit db (store t (delete_rows target limit (from t db)) db)
      end
  end.

(** A read request: the visible rows that pass the filter chain, or no data
    when the statement fails. *)
Definition select (pol : policies) (s : session) (t : table)
    (filter : row_of t -> bool) (db : Db) : option (list (row_of t)) :=
  match rls pol s db t [SELECT] with
  | None => None
  | Some visible => Some (List.filter (fun r => visible r && filter r) (from t db))
  end.

(** The [data] field of the response to a read, as the pages use it: the
    rows, and nothing when the statement failed ([data: null]). *)
Definition data {R} (response : option (list R)) : list R :=
  match response with
  | Some rows => rows
  | None => []
  end.

(** [.single()]: the row if the result has exactly one, otherwise no data. *)
Definition single {R} (response : option (list R)) : option R :=
  match response with
  | Some [r] => Some r
  | _ => None
  end.

(** A run of requests, each with its acting identity. *)
Fixpoint execute_all (pol : policies) (qs : list (session * request)) (db : Db) : Db :=
  match qs with
  | [] => db
  | (s, q) :: rest => execute_all pol rest (fst (execute pol s q db))
  end.

(** The column defaults the server draws for an inserted row. *)
Record defaults := {
  gen_random_uuid : uuid;
  now : timestamptz
}.

(** ** The admin page *)

Module AdminDashboard.

(** [toggleRoomStatus(roomId, currentStatus)], called by the page for the
    rooms the acting user created, with the status the page last fetched.
    Neither request throws (a refusal comes back in the [error] field,
    which is not read), so the [catch] branch is never entered. *)
Definition toggleRoomStatus (pol : policies) (user : session)
    (roomId currentStatus : string) (db : Db) : Db :=
  let newStatus := if currentStatus =? "active" then "waiting" else "active" in
  let db :=
    if newStatus =? "active" then
      (* Activate the first level when starting the room *)
      fst (execute pol user
             (Update Levels
                (fun l => (levels.room_id l =? roomId)
                          && (levels.status l =? "waiting"))
                (Some 1)
                (levels.set_status "active"))
             db)
    else db in
  fst (execute pol user
         (Update Rooms (fun r => rooms.id r =? roomId) None
                 (rooms.set_status newStatus))
         db).

End AdminDashboard.

(** ** The dashboard *)

Module Dashboard.

(** The page state that the handlers below read or write; [location] is
    the route the router shows. *)
Record state := {
  roomCode : string;
  error : string;
  location : string
}.

Definition setError (e : string) (st : state) : state :=
  {| roomCode := roomCode st; error := e; location := location st |}.

Definition navigate (path : string) (st : state) : state :=
  {| roomCode := roomCode st; error := error st; location := path |}.

(** [ORDER BY points DESC]: larger first, NULL before any number. *)
Definition points_geb (a b : option Z) : bool :=
  match a, b with
  | None, _ => true
  | Some _, None => false
  | Some x, Some y => (y <=? x)%Z
  end.

Fixpoint insert_by_points (u : users.row) (sorted : list users.row)
    : list users.row :=
  match sorted with
  | [] => [u]
  | v :: rest =>
      if points_geb (users.points u) (users.points v)
      then u :: v :: rest
      else v :: insert_by_points u rest
  end.

Definition order_by_points_desc (rows : list users.row) : list users.row :=
  fold_right insert_by_points [] rows.

(** The leaderboard query of [fetchData]:
    [from('users').select('username, points')
       .order('points', { ascending: false }).limit(5)]. *)
Definition top_users (pol : policies) (user : session) (db : Db)
    : option (list (string * option Z)) :=
  option_map
    (fun rows => map (fun u => (users.username u, users.points u))
                     (firstn 5 (order_by_points_desc rows)))
    (select pol user Users (fun _ => true) db).

(** [handleJoinRoom]: look the room up by the code typed in, insert the
    participant row, go to the room.  The response of the insert is
    awaited and dropped.  [user.id] on a missing user is the one place
    that throws. *)
Definition handleJoinRoom (pol : policies) (user : session) (d : defaults)
    (st : state) (db : Db) : Db * state :=
  match single (select pol user Rooms
                  (fun r => rooms.code r =? roomCode st) db) with
  | None => (db, setError "Room not found" st)
  | Some room =>
      match user with
      | None => (db, setError "Cannot read properties of null (reading 'id')" st)
      | Some uid =>
          let db' :=
            fst (execute pol user
                   (Insert RoomParticipants
                      (room_participants.mk (gen_random_uuid d) (rooms.id room)
                                            uid (Some (now d))))
                   db) in
          (db', navigate ("/room/" ++ rooms.id room) st)
      end
  end.

End Dashboard.

(** ** The room page *)

Module Room.

(** The values that submitted code can hand to the page, as far as the page
    looks at them: it calls [toString()] on what the compiled function
    returns, twice, and reads [message] of what was thrown.

    A number is given by its text, which is what both [n.toString()] and
    [String(n)] produce for it ("12", "0.5", "1e+21", "NaN"); a bigint or a
    symbol is given in the same way.  Of an object the page only uses the
    calls [output.toString()]: [toString] says how the first call ends and
    [toString_again] how the second one does; [valueOf] says how a call of
    that method ends, which [String(output)] may need.

    Of a thrown value the page only reads [message]: [Thrown m] is a value
    whose [message] reads as [m] (an Error with its text, [JSUndefined] for
    a value that has no such property); [Unreadable m] is a value whose
    [message] cannot be read, the attempt throwing an error with message
    [m] ([null] and [undefined], with the TypeError of the engine, or a
    property that throws when read). *)
Inductive js_value :=
| JSUndefined
| JSNull
| JSBoolean (b : bool)
| JSNumber (text : string)
| JSString (s : string)
| JSObject (toString toString_again valueOf : method)
with method :=
| NotCallable                       (* no callable property of that name *)
| Returns (v : js_value)
| Throws (e : thrown)
| Loops                             (* never returns *)
| Interferes                        (* see [Interfere] below *)
with thrown :=
| Thrown (message : js_value)
| Unreadable (message : string).

(** How an evaluation of script code ends.  [Normal], [Throw] and [Diverge]
    are the ends of code that does nothing but compute.  [Interfere] stands
    for code that does something to the page it runs in: it replaces a
    built-in that the page goes on to use ([Array.prototype.every], which
    decides whether the submission is sent, [fetch], which carries it), or
    sends requests of its own.  [new Function] runs the text unconfined, so
    such code exists; what the page does after it has run is not given by
    the source of the page any more, and [run_test] and [runTests] below
    give no result for such a run. *)
Inductive completion (A : Type) :=
| Normal (a : A)
| Throw (e : thrown)
| Diverge
| Interfere.
Arguments Throw {A} e.
Arguments Diverge {A}.
Arguments Interfere {A}.

(** An Error object with the given message: a SyntaxError of the compiler,
    a TypeError of the engine (here with the wording of V8), an Error of
    the submitted code. *)
Definition Error_ (message : string) : thrown := Thrown (JSString message).

(** [throw null] and [throw undefined]. *)
Definition thrown_null : thrown :=
  Unreadable "Cannot read properties of null (reading 'message')".

Definition thrown_undefined : thrown :=
  Unreadable "Cannot read properties of undefined (reading 'message')".

Definition boolean_text (b : bool) : string :=
  if b then "true" else "false".

(** A call of a method of [output]. *)
Definition call (m : method) : completion js_value :=
  match m with
  | NotCallable => Throw (Error_ "output.toString is not a function")
  | Returns r => Normal r
  | Throws e => Throw e
  | Loops => Diverge
  | Interferes => Interfere
  end.

(** The method call [v.toString()], the first time. *)
Definition call_toString (v : js_value) : completion js_value :=
  match v with
  | JSUndefined =>
      Throw (Error_ "Cannot read properties of undefined (reading 'toString')")
  | JSNull => Throw (Error_ "Cannot read properties of null (reading 'toString')")
  | JSBoolean b => Normal (JSString (boolean_text b))
  | JSNumber text => Normal (JSString text)
  | JSString s => Normal (JSString s)
  | JSObject toString _ _ => call toString
  end.

(** The method call [v.toString()], the second time: a primitive answers as
    before, an object as its method then pleases. *)
Definition call_toString_again (v : js_value) : completion js_value :=
  match v with
  | JSObject _ toString_again _ => call toString_again
  | _ => call_toString v
  end.

(** The text of a primitive value; [None] for an object. *)
Definition primitive_text (v : js_value) : option string :=
  match v with
  | JSUndefined => Some "undefined"
  | JSNull => Some "null"
  | JSBoolean b => Some (boolean_text b)
  | JSNumber text => Some text
  | JSString s => Some s
  | JSObject _ _ _ => None
  end.

(** One step of the conversion of an object to a primitive: use the
    method if it is callable and gives a primitive, else go on. *)
Definition or_else (m : method) (otherwise : completion string)
    : completion string :=
  match m with
  | NotCallable => otherwise
  | Returns r =>
      match primitive_text r with
      | Some s => Normal s
      | None => otherwise
      end
  | Throws e => Throw e
  | Loops => Diverge
  | Interferes => Interfere
  end.

(** The conversion [String(v)]: a primitive is rendered directly; an
    object is asked for [toString()] and then for [valueOf()]. *)
Definition String_ (v : js_value) : completion string :=
  match v with
  | JSUndefined => Normal "undefined"
  | JSNull => Normal "null"
  | JSBoolean b => Normal (boolean_text b)
  | JSNumber text => Normal text
  | JSString s => Normal s
  | JSObject toString _ valueOf =>
      or_else toString
        (or_else valueOf (Throw (Error_ "Cannot convert object to primitive value")))
  end.

(** Sequencing: the second step runs when the first one ends normally. *)
Definition bind {A B} (c : completion A) (k : A -> completion B) : completion B :=
  match c with
  | Normal a => k a
  | Throw e => Throw e
  | Diverge => Diverge
  | Interfere => Interfere
  end.

Notation "x <- c ;; k" := (bind c (fun x => k))
  (at level 61, c at next level, right associativity).

(** [v === s] for a string [s]. *)
Definition strict_equals (v : js_value) (s : string) : bool :=
  match v with
  | JSString s' => s' =? s
  | _ => false
  end.

(** [interface TestResult].  At run time [message] holds whatever
    [err.message] was, and [output] whatever the second [toString()]
    returned. *)
Record TestResult := {
  passed : bool;
  message : js_value;
  output : option js_value
}.

(** The page state that [runTests] reads or writes. *)
Record state := {
  currentLevel : option levels.row;
  code : string;
  testResults : list TestResult;
  isRunning : bool;
  error : string
}.

Definition setIsRunning (b : bool) (st : state) : state :=
  {| currentLevel := currentLevel st; code := code st;
     testResults := testResults st; isRunning := b; error := error st |}.

Definition setTestResults (r : list TestResult) (st : state) : state :=
  {| currentLevel := currentLevel st; code := code st;
     testResults := r; isRunning := isRunning st; error := error st |}.

Definition setError (e : string) (st : state) : state :=
  {| currentLevel := currentLevel st; code := code st;
     testResults := testResults st; isRunning := isRunning st; error := e |}.

(** [xs.map(f)] where a call of [f] may come to no result. *)
Fixpoint map_returning {A B} (f : A -> option B) (xs : list A) : option (list B) :=
  match xs with
  | [] => Some []
  | x :: rest =>
      match f x with
      | None => None
      | Some y =>
          match map_returning f rest with
          | None => None
          | Some ys => Some (y :: ys)
          end
      end
  end.

(** What a call of the callback of [test_cases.map] comes to. *)
Inductive callback_result :=
| Result (r : TestResult)           (* it returns [r] *)
| Raises (message : string)         (* it throws an error with this message *)
| NoResult.                         (* it never returns, or the code interfered *)

(** What [test_cases.map(callback)] comes to: the results of all the calls,
    or what the first call that returns none came to. *)
Inductive mapped :=
| Results (results : list TestResult)
| Raised (message : string)
| NoResults.

Fixpoint map_calling (callback : test_case -> callback_result)
    (tests : list test_case) : mapped :=
  match tests with
  | [] => Results []
  | test :: rest =>
      match callback test with
      | Result r =>
          match map_calling callback rest with
          | Results results => Results (r :: results)
          | other => other
          end
      | Raises m => Raised m
      | NoResult => NoResults
      end
  end.

Section Evaluation.

(** A script function of one argument, seen through how its calls end. *)
Definition js_function := js_value -> completion js_value.

(** [new Function(param, body)] of the host: the function compiled from
    the source text, or the SyntaxError it throws.  The calls end as they
    do in the run at hand; code that consults more than its argument (the
    clock, a counter it keeps) may end otherwise in another run. *)
Variable new_Function : string -> string -> completion js_function.

(** The [try] block of the callback of [test_cases.map] in [runTests]:
    compile, call, convert for the comparison, convert again for the
    [output] field. *)
Definition tried (code : string) (test : test_case) : completion TestResult :=
  testFunction <- new_Function "input" code ;;
  output <- testFunction (JSString (input test)) ;;
  text <- call_toString output ;;
  let passed := strict_equals text (expected test) in
  shown <- call_toString_again output ;;
  Normal {| passed := passed;
            message := JSString (if passed then "Test passed!" else "Test failed");
            output := Some shown |}.

(** The callback: whatever is thrown inside its [try] lands in its [catch],
    which reads [err.message]; when that read throws, the callback
    throws. *)
Definition callback (code : string) (test : test_case) : callback_result :=
  match tried code test with
  | Normal r => Result r
  | Throw (Thrown m) => Result {| passed := false; message := m; output := None |}
  | Throw (Unreadable m) => Raises m
  | Diverge | Interfere => NoResult
  end.

(** The result that the callback returns for a test; [None] when it
    returns none: it throws, it never returns, or the submitted code
    interfered. *)
Definition run_test (code : string) (test : test_case) : option TestResult :=
  match callback code test with
  | Result r => Some r
  | Raises _ | NoResult => None
  end.

(** [runTests], as far as the source of the page determines what a run
    comes to; [None] where it does not: the tests never return, or the
    submitted code interfered. *)
Definition runTests (pol : policies) (user : session) (d : defaults)
    (st : state) (db : Db) : option (Db * state) :=
  let st := setTestResults [] (setIsRunning true st) in
  match currentLevel st with
  | None =>
      (* results is undefined *)
      Some (db, setIsRunning false (setTestResults [] st))
  | Some level =>
      match map_calling (callback (code st)) (levels.test_cases level) with
      | NoResults => None
      | Raised m =>
          (* the outer catch *)
          Some (db, setIsRunning false (setError m st))
      | Results results =>
          let st := setTestResults results st in
          (* If all tests pass, submit the solution *)
          if forallb passed results then
            match user with
            | None =>
                Some (db, setIsRunning false
                            (setError "Cannot read properties of null (reading 'id')" st))
            | Some uid =>
                let db' :=
                  fst (execute pol user
                         (Insert Submissions
                            (submissions.mk (gen_random_uuid d) uid
                               (levels.id level) (code st) "completed"
                               (Some 100%Z) (Some (now d))))
                         db) in
                Some (db', setIsRunning false st)
            end
          else Some (db, setIsRunning false st)
      end
  end.

End Evaluation.

End Room.

(** ** Who inserted what

    Ghost state for the authorship of submissions: next to the stored state,
    the accepted inserts into [public.submissions], each with the identity
    that issued it. *)

Definition authorship := list (session * submissions.row).

(** What a request adds to the record, given the [error] it came back
    with. *)
Definition accepted_submission (s : session) (q : request)
    (e : option pg_error) : authorship :=
  match e, q with
  | None, Insert t r =>
      match t return row_of t -> authorship with
      | Submissions => fun r => [(s, r)]
      | _ => fun _ => []
      end r
  | _, _ => []
  end.

Fixpoint execute_recording (pol : policies) (qs : list (session * request))
    (db : Db) (log : authorship) : Db * authorship :=
  match qs with
  | [] => (db, log)
  | (s, q) :: rest =>
      let (db', e) := execute pol s q db in
      execute_recording pol rest db' (log ++ accepted_submission s q e)%list
  end.

(** The state right after the migrations: five empty tables. *)
Definition empty : Db :=
  {| public_users := [];
     public_rooms := [];
     public_room_participants := [];
     public_levels := [];
     public_submissions := [] |}.

(** ** Scenarios

    Concrete states and runs used by the examples further down. *)

Module Scenario.

Definition LF : string := String (ascii_of_nat 10) EmptyString.

Definition alice : uuid := "11111111-aaaa".
Definition bob : uuid := "22222222-bbbb".

Definition room_a : uuid := "aaaaaaaa-0001".
Definition room_b : uuid := "bbbbbbbb-0002".

Definition profiles : list users.row :=
  [ users.mk alice "alice" (Some 300%Z) (Some 1%Z) (Some 10%Z);
    users.mk bob "bob" (Some 700%Z) (Some 1%Z) (Some 11%Z) ].

Definition the_rooms : list rooms.row :=
  [ rooms.mk room_a "ABC123" "Movie night" "waiting" alice (Some 20%Z);
    rooms.mk room_b "XYZ789" "Sequel" "active" bob (Some 21%Z) ].

(** The three levels [createRoom] seeds a room with. *)
Definition digital_rain_level (id room : uuid) : levels.row :=
  levels.mk id room
    "The Matrix's Digital Rain"
    "Create a function that generates the iconic 'Digital Rain' effect from The Matrix. The function should transform a string into a cascading pattern of characters."
    ("function digitalRain(input) {" ++ LF ++ "  // Your code here" ++ LF ++ "}")
    [ {| input := "hello";
         expected := "h" ++ LF ++ "e" ++ LF ++ "l" ++ LF ++ "l" ++ LF ++ "o";
         description := "Transform 'hello' into a vertical cascade" |};
      {| input := "neo";
         expected := "n" ++ LF ++ "e" ++ LF ++ "o";
         description := "Transform 'neo' into a vertical cascade" |} ]
    "The Matrix (1999)" "medium" "waiting" (Some 30%Z).

Definition dream_levels_level (id room : uuid) : levels.row :=
  levels.mk id room
    "Inception's Dream Levels"
    "Create a function that calculates how much time passes in reality given the time spent in each dream level, where each level makes time pass 12 times slower."
    ("function dreamTime(levels) {" ++ LF ++ "  // Your code here" ++ LF ++ "}")
    [ {| input := "1"; expected := "12";
         description := "1 hour in level 1 = 12 hours in reality" |};
      {| input := "2"; expected := "144";
         description := "1 hour in level 2 = 144 hours in reality" |} ]
    "Inception (2010)" "hard" "waiting" (Some 30%Z).

Definition time_circuits_level (id room : uuid) : levels.row :=
  levels.mk id room
    "Back to the Future Time Circuits"
    "Create a function that calculates the exact time difference between two dates in years, months, days, hours, and minutes, just like Doc's time circuits!"
    ("function timeDifference(date1, date2) {" ++ LF ++ "  // Your code here" ++ LF ++ "}")
    [ {| input := "1985-10-26,1955-11-05";
         expected := "29 years, 11 months, 21 days";
         description := "Calculate time difference between key dates" |} ]
    "Back to the Future (1985)" "easy" "waiting" (Some 30%Z).

Definition level_1 : levels.row := digital_rain_level "cccccccc-0001" room_a.
Definition level_2 : levels.row := dream_levels_level "cccccccc-0002" room_a.
Definition level_3 : levels.row := time_circuits_level "cccccccc-0003" room_a.

Definition alice_in_a : room_participants.row :=
  room_participants.mk "dddddddd-0001" room_a alice (Some 40%Z).
Definition bob_in_b : room_participants.row :=
  room_participants.mk "dddddddd-0002" room_b bob (Some 41%Z).

(** Alice has created room A (waiting, three waiting levels) and joined it;
    Bob has created room B and joined it. *)
Definition seeded : Db :=
  {| public_users := profiles;
     public_rooms := the_rooms;
     public_room_participants := [alice_in_a; bob_in_b];
     public_levels := [level_1; level_2; level_3];
     public_submissions := [] |}.

(** The same with the first level of room A active, as the room page needs
    it. *)
Definition playing : Db :=
  with_levels [levels.set_status "active" level_1; level_2; level_3] seeded.

(** The same again, but with other people's profiles changed: Bob has
    gained points and Carol has registered. *)
Definition carol : uuid := "33333333-cccc".

Definition later : Db :=
  store Users
    [ users.mk alice "alice" (Some 300%Z) (Some 1%Z) (Some 10%Z);
      users.mk bob "bob" (Some 9000%Z) (Some 3%Z) (Some 11%Z);
      users.mk carol "carol" None (Some 1%Z) (Some 12%Z) ]
    seeded.

Definition drawn : defaults :=
  {| gen_random_uuid := "eeeeeeee-0001"; now := 50%Z |}.

(** [input.split('').join('\n')] *)
Fixpoint cascade (s : string) : string :=
  match s with
  | EmptyString => EmptyString
  | String c EmptyString => String c EmptyString
  | String c rest => String c (LF ++ cascade rest)
  end.

Definition cascade_source : string := "return input.split('').join('\n');".

Definition object_source : string := "return { toString() { return 12; } };".

(** The object the program above returns: its [toString] returns the
    number 12 whenever it is called, the [valueOf] it inherits returns an
    object. *)
Definition twelve_object : Room.js_value :=
  Room.JSObject (Room.Returns (Room.JSNumber "12")) (Room.Returns (Room.JSNumber "12"))
                (Room.Returns (Room.JSObject Room.NotCallable Room.NotCallable
                                             Room.NotCallable)).

Definition fickle_source : string :=
  "let n = 0; return { toString() { if (n++) throw new Error('once only'); return '12'; } };".

(** The object the program above returns: its [toString] returns the
    string "12" the first time and throws from then on. *)
Definition fickle_object : Room.js_value :=
  Room.JSObject (Room.Returns (Room.JSString "12")) (Room.Throws (Room.Error_ "once only"))
                (Room.Returns (Room.JSObject Room.NotCallable Room.NotCallable
                                             Room.NotCallable)).

Definition every_source : string :=
  "Array.prototype.every = function () { return true; };".

(** A host that knows seven programs: the cascade, the empty body (which
    returns [undefined]), [return 12;], the programs that return
    [twelve_object] and [fickle_object], [throw null;], and the program
    that replaces [Array.prototype.every]; any other text does not parse. *)
Definition host (param body : string) : Room.completion Room.js_function :=
  if body =? cascade_source then
    Room.Normal (fun v => match v with
                          | Room.JSString s => Room.Normal (Room.JSString (cascade s))
                          | _ => Room.Throw (Room.Error_ "input.split is not a function")
                          end)
  else if body =? "" then Room.Normal (fun _ => Room.Normal Room.JSUndefined)
  else if body =? "return 12;" then Room.Normal (fun _ => Room.Normal (Room.JSNumber "12"))
  else if body =? object_source then Room.Normal (fun _ => Room.Normal twelve_object)
  else if body =? fickle_source then Room.Normal (fun _ => Room.Normal fickle_object)
  else if body =? "throw null;" then Room.Normal (fun _ => Room.Throw Room.thrown_null)
  else if body =? every_source then Room.Normal (fun _ => Room.Interfere)
  else Room.Throw (Room.Error_ "Unexpected identifier").

(** What the function compiled from [source] returns on the input of
    [test], if it returns. *)
Definition returned (source : string) (test : test_case) : option Room.js_value :=
  match host "input" source with
  | Room.Normal testFunction =>
      match testFunction (Room.JSString (input test)) with
      | Room.Normal output => Some output
      | _ => None
      end
  | _ => None
  end.

(** The first test case of the second seeded level. *)
Definition dream_case : test_case :=
  {| input := "1"; expected := "12";
     description := "1 hour in level 1 = 12 hours in reality" |}.

(** A test case that expects the text "undefined". *)
Definition undefined_case : test_case :=
  {| input := "neo"; expected := "undefined"; description := "nothing to return" |}.

(** A policy set that is not the repository's: policies that let every
    signed-in user read and update rooms and levels.  It serves to see what
    the requests of [toggleRoomStatus] do once they are let through. *)
Definition open_to (R : Type) (c : command) : policy R :=
  {| polname := "open";
     polcmd := c;
     polroles := Some authenticated;
     polsubselects := [];
     polqual := fun _ _ _ => true |}.

Definition open_policies : policies :=
  {| on_users := on_users migration_policies;
     on_rooms := [open_to rooms.row SELECT; open_to rooms.row UPDATE];
     on_room_participants := on_room_participants migration_policies;
     on_levels := [open_to levels.row SELECT; open_to levels.row UPDATE];
     on_submissions := on_submissions migration_policies |}.

Definition room_page (source : string) : Room.state :=
  {| Room.currentLevel := Some (levels.set_status "active" level_1);
     Room.code := source;
     Room.testResults := [];
     Room.isRunning := false;
     Room.error := "" |}.

Definition dashboard_page (typed : string) : Dashboard.state :=
  {| Dashboard.roomCode := typed;
     Dashboard.error := "";
     Dashboard.location := "/dashboard" |}.

End Scenario.

(** ** Responses that carry data *)

(** What the client finds in the [error] field of a response: what the
    database reported, or that [.single()] did not get exactly one row. *)
Inductive response_error :=
| database_error (e : pg_error)
| not_a_single_row.

Inductive response (A : Type) :=
| Ok (a : A)
| Failed (e : response_error).
Arguments Failed {A} e.

(** [.single()] with its error. *)
Definition single_row {R} (rows : option (list R)) : response R :=
  match rows with
  | None => Failed (database_error infinite_recursion_in_policy)
  | Some [r] => Ok r
  | Some _ => Failed not_a_single_row
  end.

(** [.insert([row]).select().single()]: the insert hands the stored row
    back, for which the row must pass the SELECT policies as well. *)
Definition insert_returning (pol : policies) (s : session) (t : table)
    (r : row_of t) (db : Db) : Db * response (row_of t) :=
  match rls pol s db t [INSERT; SELECT] with
  | None => (db, Failed (database_error infinite_recursion_in_policy))
  | Some allowed =>
      if allowed r then
        match commit db (store t (from t db ++ [r]) db) with
        | (db', None) => (db', Ok r)
        | (db', Some e) => (db', Failed (database_error e))
        end
      else (db, Failed (database_error (row_level_security (table_name t))))
  end.

(** [.insert(rows)]: one statement for all the rows; it stores all of them
    or none. *)
Definition insert_all (pol : policies) (s : session) (t : table)
    (rows : list (row_of t)) (db : Db) : Db * option pg_error :=
  match rls pol s db t [INSERT] with
  | None => (db, Some infinite_recursion_in_policy)
  | Some allowed =>
      if forallb allowed rows
      then commit db (store t (from t db ++ rows) db)
      else (db, Some (row_level_security (table_name t)))
  end.

(** ** Registration *)

Module AuthContext.

(** What [supabase.auth.signUp] answers: an error, or the new identity and
    whether a session came with it (none does while the address awaits
    confirmation). *)
Inductive signUp_answer :=
| authError (message : string)
| authData (user : option uuid) (session_started : bool).

Inductive outcome (A : Type) :=
| Returned (a : A)
| Thrown (message : string).
Arguments Thrown {A} message.

(** The identity the client acts with once the identity provider has
    answered. *)
Definition session_after (before : session) (answer : signUp_answer) : session :=
  match answer with
  | authData (Some u) true => Some u
  | _ => before
  end.

Section Messages.

(** [error.message] of a failed request. *)
Variable message : response_error -> string.

(** [signUp(email, password, username)]: the identity first, then the
    profile row [{ id, username }]; [points], [current_level] and
    [created_at] get their column defaults.  Without [authData.user] the
    row has no id and the insert is refused; the refusal is put down to
    the policy, which is asked first. *)
Definition signUp (pol : policies) (before : session) (answer : signUp_answer)
    (now : timestamptz) (username : string) (db : Db)
    : Db * outcome signUp_answer :=
  match answer with
  | authError m => (db, Thrown m)
  | authData user _ =>
      match user with
      | None => (db, Thrown (message (database_error (row_level_security "users"))))
      | Some id =>
          match execute pol (session_after before answer)
                  (Insert Users
                     (users.mk id username (Some 0%Z) (Some 1%Z) (Some now)))
                  db with
          | (db', Some e) => (db', Thrown (message (database_error e)))
          | (db', None) => (db', Returned answer)
          end
      end
  end.

End Messages.

End AuthContext.

Module Register.

Record state := {
  error : string;
  location : string
}.

(** [handleSubmit]: sign up, then go to the dashboard; whatever is thrown
    ends up as the error message of the form. *)
Definition handleSubmit (message : response_error -> string) (pol : policies)
    (before : session) (answer : AuthContext.signUp_answer) (now : timestamptz)
    (username : string) (st : state) (db : Db) : Db * state :=
  match AuthContext.signUp message pol before answer now username db with
  | (db', AuthContext.Returned _) =>
      (db', {| error := error st; location := "/dashboard" |})
  | (db', AuthContext.Thrown m) =>
      (db', {| error := m; location := location st |})
  end.

End Register.

(** ** The rest of the admin page *)

Module AdminRooms.

(** [interface Room] of the admin page: the row and the count embedded
    with it. *)
Record listed := {
  room : rooms.row;
  participant_count : nat
}.

Record state := {
  rooms_ : list listed;
  showNewRoom : bool;
  newRoom_name : string;
  newRoom_code : string;
  error : string
}.

Definition setError (e : string) (st : state) : state :=
  {| rooms_ := rooms_ st; showNewRoom := showNewRoom st;
     newRoom_name := newRoom_name st; newRoom_code := newRoom_code st;
     error := e |}.

Definition setRooms (l : list listed) (st : state) : state :=
  {| rooms_ := l; showNewRoom := showNewRoom st;
     newRoom_name := newRoom_name st; newRoom_code := newRoom_code st;
     error := error st |}.

(** [setShowNewRoom(false); setNewRoom({ name: '', code: '' })] *)
Definition close_form (st : state) : state :=
  {| rooms_ := rooms_ st; showNewRoom := false;
     newRoom_name := ""; newRoom_code := "";
     error := error st |}.

(** The three default levels of [createRoom] for room [room_id], with the
    ids and the time the server draws for them. *)
Definition default_levels (room_id : uuid) (d1 d2 d3 : defaults) : list levels.row :=
  let at_ (d : defaults) (l : levels.row) :=
    levels.mk (levels.id l) (levels.room_id l) (levels.title l)
      (levels.description l) (levels.initial_code l) (levels.test_cases l)
      (levels.movie_reference l) (levels.difficulty l) (levels.status l)
      (Some (now d)) in
  [ at_ d1 (Scenario.digital_rain_level (gen_random_uuid d1) room_id);
    at_ d2 (Scenario.dream_levels_level (gen_random_uuid d2) room_id);
    at_ d3 (Scenario.time_circuits_level (gen_random_uuid d3) room_id) ].

(** [ORDER BY created_at DESC]: later first, NULL before any time. *)
Definition created_geb (a b : option timestamptz) : bool :=
  match a, b with
  | None, _ => true
  | Some _, None => false
  | Some x, Some y => (y <=? x)%Z
  end.

Fixpoint insert_by_created_at (r : rooms.row) (sorted : list rooms.row)
    : list rooms.row :=
  match sorted with
  | [] => [r]
  | v :: rest =>
      if created_geb (rooms.created_at r) (rooms.created_at v)
      then r :: v :: rest
      else v :: insert_by_created_at r rest
  end.

Definition order_by_created_at_desc (rows : list rooms.row) : list rooms.row :=
  fold_right insert_by_created_at [] rows.

Section Messages.

Variable message : response_error -> string.

(** [fetchRooms], defined past the guard on [user]:
    [from('rooms').select('*, room_participants(count)')
       .eq('created_by', user.id).order('created_at', { ascending: false })].
    The embedded count is a read of [room_participants] by the same
    identity: it counts the rows of the room that this identity sees, and
    when that read fails the request fails. *)
Definition fetchRooms (pol : policies) (uid : uuid) (st : state) (db : Db) : state :=
  match select pol (Some uid) Rooms (fun r => rooms.created_by r =? uid) db,
        select pol (Some uid) RoomParticipants (fun _ => true) db with
  | Some mine, Some participants =>
      setRooms
        (map (fun r =>
                {| room := r;
                   participant_count :=
                     length (filter (fun p => room_participants.room_id p =? rooms.id r)
                                    participants) |})
             (order_by_created_at_desc mine))
        st
  | _, _ => setError (message (database_error infinite_recursion_in_policy)) st
  end.

(** [createRoom]: the room row first, read back with its id, then the
    three default levels in one insert.  Two requests, nothing that takes
    the first back when the second fails.  Without a user the row has no
    [created_by] and the insert is refused; the refusal is put down to the
    policy, which is asked first. *)
Definition createRoom (pol : policies) (user : session) (d d1 d2 d3 : defaults)
    (st : state) (db : Db) : Db * state :=
  match user with
  | None => (db, setError (message (database_error (row_level_security "rooms"))) st)
  | Some uid =>
      match insert_returning pol user Rooms
              (rooms.mk (gen_random_uuid d) (newRoom_code st) (newRoom_name st)
                        "waiting" uid (Some (now d)))
              db with
      | (db1, Failed e) => (db1, setError (message e) st)
      | (db1, Ok room) =>
          match insert_all pol user Levels
                  (default_levels (rooms.id room) d1 d2 d3) db1 with
          | (db2, Some e) => (db2, setError (message (database_error e)) st)
          | (db2, None) => (db2, close_form st)
          end
      end
  end.

End Messages.

End AdminRooms.

(** ** The rest of the dashboard *)

Module DashboardData.

(** The first query of [fetchData]:
    [from('rooms').select('*').eq('status', 'active').limit(5)]; no data
    leaves the list on the page as it is. *)
Definition active_rooms (pol : policies) (user : session) (db : Db)
    : option (list rooms.row) :=
  option_map (firstn 5)
             (select pol user Rooms (fun r => rooms.status r =? "active") db).

End DashboardData.

(** ** Loading the room page *)

Module RoomData.

(** One entry of the participant list: [user_id] and the embedded
    [users(username, points)], absent when the identity that asks does not
    see that profile. *)
Record participant := {
  user_id : uuid;
  users_ : option (string * option Z)
}.

(** The page state of the room page: what [runTests] works on, the room
    and the participant list. *)
Record state := {
  room : option rooms.row;
  participants : list participant;
  editor : Room.state
}.

Definition setError (e : string) (st : state) : state :=
  {| room := room st; participants := participants st;
     editor := Room.setError e (editor st) |}.

Definition setRoom (r : rooms.row) (st : state) : state :=
  {| room := Some r; participants := participants st; editor := editor st |}.

(** [setCurrentLevel(levelData); setCode(levelData.initial_code)] *)
Definition setCurrentLevel (l : levels.row) (st : state) : state :=
  {| room := room st; participants := participants st;
     editor := {| Room.currentLevel := Some l;
                  Room.code := levels.initial_code l;
                  Room.testResults := Room.testResults (editor st);
                  Room.isRunning := Room.isRunning (editor st);
                  Room.error := Room.error (editor st) |} |}.

Definition setParticipants (ps : list participant) (st : state) : state :=
  {| room := room st; participants := ps; editor := editor st |}.

(** [from('room_participants')
       .select('user_id, users:users(username, points)').eq('room_id', id)]:
    the embedded profile is the row of [users] the participant row
    refers to, as far as the identity that asks sees it. *)
Definition select_participants (pol : policies) (user : session) (id : uuid)
    (db : Db) : option (list participant) :=
  match select pol user RoomParticipants
               (fun p => room_participants.room_id p =? id) db,
        select pol user Users (fun _ => true) db with
  | Some rows, Some profiles =>
      Some (map (fun p =>
                   {| user_id := room_participants.user_id p;
                      users_ :=
                        match filter (fun u => users.id u =? room_participants.user_id p)
                                     profiles with
                        | u :: _ => Some (users.username u, users.points u)
                        | [] => None
                        end |})
                rows)
  | _, _ => None
  end.

Section Messages.

Variable message : response_error -> string.

(** [fetchRoomData] for the room [id] of the route: the room, its active
    level, the participants; the first request that fails ends it with
    the error message set. *)
Definition fetchRoomData (pol : policies) (user : session) (id : uuid)
    (st : state) (db : Db) : state :=
  match single_row (select pol user Rooms (fun r => rooms.id r =? id) db) with
  | Failed e => setError (message e) st
  | Ok roomData =>
      let st := setRoom roomData st in
      match single_row
              (select pol user Levels
                 (fun l => (levels.room_id l =? id) && (levels.status l =? "active"))
                 db) with
      | Failed e => setError (message e) st
      | Ok levelData =>
          let st := setCurrentLevel levelData st in
          match select_participants pol user id db with
          | None => setError (message (database_error infinite_recursion_in_policy)) st
          | Some participantData => setParticipants participantData st
          end
      end
  end.

End Messages.

End RoomData.

(** ** Whose row it is *)

(** The column that the INSERT policy of a table compares with
    [auth.uid()]; [public.levels] has no INSERT policy. *)
Definition owner (t : table) : row_of t -> option uuid :=
  match t with
  | Users => fun r => Some (users.id r)
  | Rooms => fun r => Some (rooms.created_by r)
  | RoomParticipants => fun r => Some (room_participants.user_id r)
  | Levels => fun _ => None
  | Submissions => fun r => Some (submissions.user_id r)
  end.

(** ** More scenarios *)

Module Walkthrough.

Definition drawn_again : defaults :=
  {| gen_random_uuid := "eeeeeeee-0002"; now := 60%Z |}.

(** A level that comes without test cases, active in room A. *)
Definition bare_level : levels.row :=
  levels.mk "cccccccc-0004" Scenario.room_a "Warm-up" "Nothing to do."
            "" [] "None" "easy" "active" (Some 31%Z).

Definition with_bare_level : Db :=
  with_levels [Scenario.level_1; Scenario.level_2; Scenario.level_3; bare_level]
              Scenario.seeded.

Definition bare_page (source : string) : Room.state :=
  {| Room.currentLevel := Some bare_level;
     Room.code := source;
     Room.testResults := [];
     Room.isRunning := false;
     Room.error := "" |}.

(** The messages of the errors, as far as the examples need them told
    apart. *)
Definition message (e : response_error) : string :=
  match e with
  | database_error (row_level_security relation) =>
      "new row violates row-level security policy for table " ++ relation
  | database_error infinite_recursion_in_policy =>
      "infinite recursion detected in policy"
  | database_error (constraint_violation _) => "violates constraint"
  | not_a_single_row => "JSON object requested, multiple (or no) rows returned"
  end.

Definition register_form : Register.state :=
  {| Register.error := ""; Register.location := "/register" |}.

Definition admin_form (name code : string) : AdminRooms.state :=
  {| AdminRooms.rooms_ := [];
     AdminRooms.showNewRoom := true;
     AdminRooms.newRoom_name := name;
     AdminRooms.newRoom_code := code;
     AdminRooms.error := "" |}.

(** The two profiles, the two rooms and the two memberships of
    [Scenario.seeded] without any level: what the two clients leave in the
    tables of the migrations once both have registered and each has created
    a room and joined it.  [setting_up] are their requests. *)
Definition two_rooms : Db := with_levels [] Scenario.seeded.

Definition setting_up : list (session * request) :=
  [ (Some Scenario.alice,
     Insert Users (users.mk Scenario.alice "alice" (Some 300%Z) (Some 1%Z) (Some 10%Z)));
    (Some Scenario.bob,
     Insert Users (users.mk Scenario.bob "bob" (Some 700%Z) (Some 1%Z) (Some 11%Z)));
    (Some Scenario.alice,
     Insert Rooms (rooms.mk Scenario.room_a "ABC123" "Movie night" "waiting"
                            Scenario.alice (Some 20%Z)));
    (Some Scenario.bob,
     Insert Rooms (rooms.mk Scenario.room_b "XYZ789" "Sequel" "active"
                            Scenario.bob (Some 21%Z)));
    (Some Scenario.alice, Insert RoomParticipants Scenario.alice_in_a);
    (Some Scenario.bob, Insert RoomParticipants Scenario.bob_in_b) ].

(** A level of room B, as the policy on levels would be asked about it. *)
Definition level_of_b : levels.row :=
  Scenario.digital_rain_level "cccccccc-0009" Scenario.room_b.

(** Two attempts to store the same submission for Alice on the first level
    of room A: one by Bob, one by Alice. *)
Definition alice_row : submissions.row :=
  submissions.mk "eeeeeeee-0001" Scenario.alice "cccccccc-0001"
                 Scenario.cascade_source "completed" (Some 100%Z) (Some 50%Z).

Definition two_attempts : list (session * request) :=
  [ (Some Scenario.bob, Insert Submissions alice_row);
    (Some Scenario.alice, Insert Submissions alice_row) ].

End Walkthrough.

(** * Properties *)

Example seeded_is_consistent : consistent Scenario.seeded = true.
Proof. vm_compute. reflexivity. Qed.

Example cascade_hello :
  Room.run_test Scenario.host Scenario.cascade_source
    {| input := "hello";
       expected := "h" ++ Scenario.LF ++ "e" ++ Scenario.LF ++ "l" ++ Scenario.LF
                   ++ "l" ++ Scenario.LF ++ "o";
       description := "" |}
  = Some {| Room.passed := true; Room.message := Room.JSString "Test passed!";
            Room.output := Some (Room.JSString (Scenario.cascade "hello")) |}.
Proof. vm_compute. reflexivity. Qed.

(** The requests of [Walkthrough.setting_up] are all accepted. *)
Example two_rooms_are_set_up :
  execute_all migration_policies Walkthrough.setting_up empty = Walkthrough.two_rooms.
Proof. vm_compute. reflexivity. Qed.

(** ** Lists, constraints and commits *)

Lemma violated_nil_iff (db : Db) : violated db = [] <-> consistent db = true.
Proof.
  unfold violated, consistent.
  induction (constraints db) as [|[name ok] cs IH]; simpl.
  - split; reflexivity.
  - destruct ok; simpl.
    + exact IH.
    + split; discriminate.
Qed.

Lemma commit_cases (db db' : Db) :
  (consistent db' = true /\ commit db db' = (db', None)) \/
  (consistent db' = false /\
   commit db db' = (db, Some (constraint_violation (violated db')))).
Proof.
  unfold commit.
  destruct (violated db') as [|n ns] eqn:E.
  - left. split; [apply violated_nil_iff; exact E | reflexivity].
  - right. split; [|reflexivity].
    destruct (consistent db') eqn:C; [|reflexivity].
    apply violated_nil_iff in C. congruence.
Qed.

Lemma commit_same (db : Db) : fst (commit db db) = db.
Proof. destruct (commit_cases db db) as [[_ E]|[_ E]]; rewrite E; reflexivity. Qed.

Lemma store_from (t : table) (db : Db) : store t (from t db) db = db.
Proof. destruct db, t; reflexivity. Qed.

Lemma update_rows_untargeted {R} (target : R -> bool) limit patch (rows : list R) :
  (forall r, target r = false) -> update_rows target limit patch rows = rows.
Proof.
  intros none. revert limit.
  induction rows as [|r rest IH]; intros limit; simpl.
  - reflexivity.
  - rewrite none, IH. reflexivity.
Qed.

Lemma delete_rows_untargeted {R} (target : R -> bool) limit (rows : list R) :
  (forall r, target r = false) -> delete_rows target limit rows = rows.
Proof.
  intros none. revert limit.
  induction rows as [|r rest IH]; intros limit; simpl.
  - reflexivity.
  - rewrite none, IH. reflexivity.
Qed.

(** An update leaves every row in place and replaces a row, if at all, by
    its patched version, which it does for targeted rows only. *)
Lemma update_rows_pointwise {R} (target : R -> bool) limit patch (rows : list R) :
  Forall2 (fun r r' => r' = r \/ (target r = true /\ r' = patch r))
          rows (update_rows target limit patch rows).
Proof.
  assert (same : forall l : list R,
             Forall2 (fun r r' => r' = r \/ (target r = true /\ r' = patch r)) l l).
  { induction l; constructor; auto. }
  revert limit.
  induction rows as [|r rest IH]; intros limit; simpl.
  - constructor.
  - destruct (target r) eqn:T.
    + destruct limit as [[|n]|].
      * apply same.
      * constructor; auto.
      * constructor; auto.
    + constructor; auto.
Qed.

(** ** Statements under the policies of the migrations *)

(** No table has an UPDATE policy: whatever rows an update names, row-level
    security lets it act on none of them (or fails the statement). *)
Lemma no_row_is_updatable (s : session) (db : Db) (t : table) :
  match rls migration_policies s db t [UPDATE; SELECT] with
  | None => True
  | Some allowed => forall r, allowed r = false
  end.
Proof. destruct t, s; cbn; auto. Qed.

(** Nor has any table a DELETE policy. *)
Lemma no_row_is_deletable (s : session) (db : Db) (t : table) :
  match rls migration_policies s db t [DELETE; SELECT] with
  | None => True
  | Some allowed => forall r, allowed r = false
  end.
Proof. destruct t, s; cbn; auto. Qed.

Lemma update_is_without_effect (s : session) (db : Db) (t : table)
    (filter : row_of t -> bool) limit patch :
  fst (execute migration_policies s (Update t filter limit patch) db) = db.
Proof.
  unfold execute.
  pose proof (no_row_is_updatable s db t) as N.
  destruct (rls migration_policies s db t [UPDATE; SELECT]) as [allowed|]; [|reflexivity].
  assert (none : forall r, filter r && allowed r = false)
    by (intros r; rewrite N; apply andb_false_r).
  destruct (forallb _ _); [|reflexivity].
  rewrite update_rows_untargeted by exact none.
  rewrite store_from. apply commit_same.
Qed.

Lemma delete_is_without_effect (s : session) (db : Db) (t : table)
    (filter : row_of t -> bool) limit :
  fst (execute migration_policies s (Delete t filter limit) db) = db.
Proof.
  unfold execute.
  pose proof (no_row_is_deletable s db t) as N.
  destruct (rls migration_policies s db t [DELETE; SELECT]) as [allowed|]; [|reflexivity].
  assert (none : forall r, filter r && allowed r = false)
    by (intros r; rewrite N; apply andb_false_r).
  rewrite delete_rows_untargeted by exact none.
  rewrite store_from. apply commit_same.
Qed.

(** ** Starting and pausing a room *)

(** Under the policies of the migrations a toggle, in either direction,
    leaves every stored row as it was: the two updates it issues find no row
    they may act on. *)
Lemma toggle_is_without_effect (user : session) (roomId currentStatus : string)
    (db : Db) :
  AdminDashboard.toggleRoomStatus migration_policies user roomId currentStatus db = db.
Proof.
  unfold AdminDashboard.toggleRoomStatus.
  destruct ((if currentStatus =? "active" then "waiting" else "active") =? "active");
    rewrite !update_is_without_effect; reflexivity.
Qed.

(** C8.  Deactivating an active room, as the page does with
    [toggleRoomStatus(room.id, room.status)], issues the one update on
    [public.rooms]: whatever the policies in force, the levels and the other
    three tables stay as they are, and a room row is either unchanged or is
    the row of that room with [status] set to 'waiting'. *)
Theorem deactivation_changes_only_room_status (pol : policies) (user : session)
    (db : Db) (room : rooms.row) :
  In room (public_rooms db) ->
  rooms.status room = "active" ->
  let db' := AdminDashboard.toggleRoomStatus pol user (rooms.id room)
               (rooms.status room) db in
  public_levels db' = public_levels db
  /\ public_users db' = public_users db
  /\ public_room_participants db' = public_room_participants db
  /\ public_submissions db' = public_submissions db
  /\ Forall2 (fun r r' => r' = r \/
                (rooms.id r = rooms.id room /\ r' = rooms.set_status "waiting" r))
             (public_rooms db) (public_rooms db').
Proof.
  intros _ active. cbv zeta.
  unfold AdminDashboard.toggleRoomStatus. rewrite active. cbn [String.eqb Ascii.eqb Bool.eqb].
  assert (same : forall l : list rooms.row,
             Forall2 (fun r r' => r' = r \/
                (rooms.id r = rooms.id room /\ r' = rooms.set_status "waiting" r)) l l).
  { induction l; constructor; auto. }
  unfold execute.
  destruct (rls pol user db Rooms [UPDATE; SELECT]) as [allowed|]; cbn [fst];
    [|repeat split; apply same].
  destruct (forallb _ _); cbn [fst]; [|repeat split; apply same].
  match goal with
  | |- context [commit db ?new] =>
      destruct (commit_cases db new) as [[_ E]|[_ E]]; rewrite E; cbn [fst]
  end; [|repeat split; apply same].
  repeat split. cbn.
  eapply Forall2_impl; [|apply update_rows_pointwise].
  intros r r' [->|[T ->]]; [left; reflexivity|right].
  apply andb_prop in T. destruct T as [T _].
  apply String.eqb_eq in T. auto.
Qed.

Lemma deactivation_changes_only_room_status_witness :
  let db' := AdminDashboard.toggleRoomStatus migration_policies (Some Scenario.bob)
               Scenario.room_b "active" Scenario.seeded in
  public_levels db' = public_levels Scenario.seeded
  /\ public_users db' = public_users Scenario.seeded
  /\ public_room_participants db' = public_room_participants Scenario.seeded
  /\ public_submissions db' = public_submissions Scenario.seeded
  /\ Forall2 (fun r r' => r' = r \/
                (rooms.id r = Scenario.room_b /\ r' = rooms.set_status "waiting" r))
             (public_rooms Scenario.seeded) (public_rooms db').
Proof.
  apply (@deactivation_changes_only_room_status migration_policies
           (Some Scenario.bob) Scenario.seeded
           (rooms.mk Scenario.room_b "XYZ789" "Sequel" "active" Scenario.bob (Some 21%Z))).
  - simpl. right. left. reflexivity.
  - reflexivity.
Defined.

(** Where a policy set lets the creator update rooms, pausing does change
    the status of the room, and of that room only. *)
Example pausing_under_open_policies :
  let db' := AdminDashboard.toggleRoomStatus Scenario.open_policies (Some Scenario.bob)
               Scenario.room_b "active" Scenario.seeded in
  map rooms.status (public_rooms Scenario.seeded) = ["waiting"; "active"]
  /\ map rooms.status (public_rooms db') = ["waiting"; "waiting"]
  /\ public_levels db' = public_levels Scenario.seeded.
Proof. vm_compute. repeat split. Qed.

(** ** Submissions *)

(** What one request does to [public.submissions] under the policies of the
    migrations: it appends the rows it adds to the authorship record, and
    these were inserted by the identity in their [user_id]. *)
Lemma execute_on_submissions (s : session) (q : request) (db : Db) :
  let (db', e) := execute migration_policies s q db in
  public_submissions db'
    = (public_submissions db ++ map snd (accepted_submission s q e))%list
  /\ forall s' r, In (s', r) (accepted_submission s q e) ->
                  s' = Some (submissions.user_id r).
Proof.
  destruct q as [t r | t f limit patch | t f limit].
  - assert (nothing : forall db' : Db,
              public_submissions db' = public_submissions db ->
              public_submissions db' = (public_submissions db ++ [])%list
              /\ forall (s' : session) (r' : submissions.row), False ->
                    s' = Some (submissions.user_id r')).
    { intros db' same. rewrite app_nil_r. split; [exact same | intros ? ? []]. }
    unfold execute.
    destruct t, s as [u|]; cbn -[commit];
      try (apply nothing; reflexivity);
      match goal with
      | |- context [if ?c then _ else _] => destruct c eqn:C
      end;
      try (apply nothing; reflexivity);
      match goal with
      | |- context [commit db ?new] =>
          destruct (commit_cases db new) as [[_ E]|[_ E]]; rewrite E
      end;
      try (apply nothing; reflexivity).
    cbn. split; [reflexivity|].
    intros s' r' [H|[]]. inversion H; subst.
    rewrite andb_true_r, orb_false_r in C. apply String.eqb_eq in C.
    congruence.
  - pose proof (update_is_without_effect s db t f limit patch) as U.
    destruct (execute migration_policies s (Update t f limit patch) db) as [db' e].
    cbn in U. subst db'.
    destruct e; cbn; rewrite app_nil_r; (split; [reflexivity | intros ? ? []]).
  - pose proof (delete_is_without_effect s db t f limit) as U.
    destruct (execute migration_policies s (Delete t f limit) db) as [db' e].
    cbn in U. subst db'.
    destruct e; cbn; rewrite app_nil_r; (split; [reflexivity | intros ? ? []]).
Qed.

Lemma execute_all_extends_submissions (qs : list (session * request)) (db : Db) :
  exists added,
    public_submissions (execute_all migration_policies qs db)
      = (public_submissions db ++ added)%list.
Proof.
  revert db. induction qs as [|[s q] rest IH]; intros db; simpl.
  - exists []. rewrite app_nil_r. reflexivity.
  - pose proof (execute_on_submissions s q db) as H.
    destruct (execute migration_policies s q db) as [db' e]. cbn [fst].
    destruct H as [H _].
    destruct (IH db') as [added E].
    exists (map snd (accepted_submission s q e) ++ added)%list.
    rewrite E, H, app_assoc. reflexivity.
Qed.

(** C7.  Whoever asks, an UPDATE or a DELETE on [public.submissions] leaves
    the table as it is, whatever rows it names and whatever patch it carries;
    and through any run of requests by any identities the table only grows
    at its end: every row once stored stays, in place, with all its fields. *)
Theorem submissions_are_append_only :
  (forall (user : session) filter limit patch (db : Db),
      public_submissions
        (fst (execute migration_policies user
                (Update Submissions filter limit patch) db))
      = public_submissions db)
  /\ (forall (user : session) filter limit (db : Db),
      public_submissions
        (fst (execute migration_policies user
                (Delete Submissions filter limit) db))
      = public_submissions db)
  /\ (forall (qs : list (session * request)) (db : Db),
      exists added,
        public_submissions (execute_all migration_policies qs db)
        = (public_submissions db ++ added)%list).
Proof.
  split; [|split].
  - intros. rewrite update_is_without_effect. reflexivity.
  - intros. rewrite delete_is_without_effect. reflexivity.
  - apply execute_all_extends_submissions.
Qed.

(** What a run adds to [public.submissions] is what it adds to the record,
    row by row, and every entry of the record names as its author the
    identity in the [user_id] of the row. *)
Lemma recorded_additions (qs : list (session * request)) (db : Db)
    (log : authorship) :
  exists added,
    snd (execute_recording migration_policies qs db log) = (log ++ added)%list
    /\ public_submissions (fst (execute_recording migration_policies qs db log))
       = (public_submissions db ++ map snd added)%list
    /\ forall s r, In (s, r) added -> s = Some (submissions.user_id r).
Proof.
  revert db log. induction qs as [|[s q] rest IH]; intros db log; simpl.
  - exists []. rewrite !app_nil_r. repeat split. intros ? ? [].
  - pose proof (execute_on_submissions s q db) as H.
    destruct (execute migration_policies s q db) as [db' e].
    destruct H as [grown who].
    destruct (IH db' (log ++ accepted_submission s q e)%list) as (added & L & S & W).
    exists (accepted_submission s q e ++ added)%list.
    rewrite L, S, grown, map_app, !app_assoc. repeat split.
    intros s' r. rewrite in_app_iff. intros [new|later]; [apply who | apply W]; assumption.
Qed.

Lemma recorded_authorship (qs : list (session * request)) (db : Db)
    (log : authorship) :
  (forall r, In r (public_submissions db) ->
             In (Some (submissions.user_id r), r) log) ->
  forall r,
    In r (public_submissions (fst (execute_recording migration_policies qs db log))) ->
    In (Some (submissions.user_id r), r)
       (snd (execute_recording migration_policies qs db log)).
Proof.
  intros inv r.
  destruct (recorded_additions qs db log) as (added & -> & -> & who).
  rewrite !in_app_iff. intros [old|new].
  - left. apply inv, old.
  - right. apply in_map_iff in new. destruct new as [[s' r'] [<- new]].
    cbn [snd]. rewrite <- (who _ _ new). exact new.
Qed.

(** C3.  For an authenticated user U the INSERT policy of
    [public.submissions] lets a row through exactly when its [user_id] is
    U.  Hence, from whatever stored state the clients start (the tables as
    the migrations leave them, or tables in which an operator has stored
    rooms and levels) and whatever requests they then send: the submissions
    afterwards are the ones stored before followed by the rows of the
    accepted inserts, in their order, and each of these rows was inserted
    by the identity named in its [user_id]; and if every submission stored
    before is on record with its author, so is every submission stored
    afterwards. *)
Theorem submissions_are_inserted_by_their_owner :
  (forall (U : uuid) (db : Db),
      exists admits,
        rls migration_policies (Some U) db Submissions [INSERT] = Some admits
        /\ forall S : submissions.row,
             admits S = true <-> submissions.user_id S = U)
  /\ (forall (qs : list (session * request)) (db : Db),
        let after := execute_recording migration_policies qs db [] in
        public_submissions (fst after)
        = (public_submissions db ++ map snd (snd after))%list
        /\ forall (s : session) (r : submissions.row),
             In (s, r) (snd after) -> s = Some (submissions.user_id r))
  /\ (forall (qs : list (session * request)) (db : Db) (log : authorship),
        (forall r, In r (public_submissions db) ->
                   In (Some (submissions.user_id r), r) log) ->
        forall r,
          In r (public_submissions
                  (fst (execute_recording migration_policies qs db log))) ->
          In (Some (submissions.user_id r), r)
             (snd (execute_recording migration_policies qs db log))).
Proof.
  split; [|split].
  - intros U db. eexists. split; [reflexivity|].
    intros S. cbn. rewrite andb_true_r, orb_false_r.
    rewrite String.eqb_eq. split; congruence.
  - intros qs db. cbv zeta.
    destruct (recorded_additions qs db []) as (added & -> & -> & who).
    cbn [app]. split; [reflexivity | exact who].
  - apply recorded_authorship.
Qed.

(** With the first level of room A stored, Bob's attempt to store a
    submission in Alice's name is refused and Alice's own is accepted: one
    row is added, on record as inserted by Alice. *)
Example only_alice_submits_for_alice :
  execute_recording migration_policies Walkthrough.two_attempts Scenario.playing []
  = (with_submissions [Walkthrough.alice_row] Scenario.playing,
     [(Some Scenario.alice, Walkthrough.alice_row)]).
Proof. vm_compute. reflexivity. Qed.

(** ** The leaderboard *)

Lemma in_insert_by_points (u v : users.row) (sorted : list users.row) :
  In v (Dashboard.insert_by_points u sorted) <-> v = u \/ In v sorted.
Proof.
  induction sorted as [|w rest IH]; simpl.
  - intuition congruence.
  - destruct (Dashboard.points_geb (users.points u) (users.points w)); simpl.
    + intuition congruence.
    + rewrite IH. intuition congruence.
Qed.

Lemma in_order_by_points_desc (v : users.row) (rows : list users.row) :
  In v (Dashboard.order_by_points_desc rows) <-> In v rows.
Proof.
  unfold Dashboard.order_by_points_desc.
  induction rows as [|u rest IH]; simpl.
  - reflexivity.
  - rewrite in_insert_by_points, IH. intuition congruence.
Qed.

Lemma length_insert_by_points (u : users.row) (sorted : list users.row) :
  length (Dashboard.insert_by_points u sorted) = S (length sorted).
Proof.
  induction sorted as [|w rest IH]; simpl; [reflexivity|].
  destruct (Dashboard.points_geb _ _); simpl; [reflexivity|].
  rewrite IH. reflexivity.
Qed.

Lemma length_order_by_points_desc (rows : list users.row) :
  length (Dashboard.order_by_points_desc rows) = length rows.
Proof.
  unfold Dashboard.order_by_points_desc.
  induction rows as [|u rest IH]; simpl; [reflexivity|].
  rewrite length_insert_by_points, IH. reflexivity.
Qed.

Lemma in_firstn {A} (n : nat) (x : A) (l : list A) : In x (firstn n l) -> In x l.
Proof.
  intros H. rewrite <- (firstn_skipn n l). apply in_or_app. left. exact H.
Qed.

(** A key under a uniqueness constraint selects at most one row. *)
Lemma unique_on_selects_one {R} (key : R -> string) (k : string) (rows : list R) :
  unique_on key rows = true ->
  length (filter (fun r => key r =? k) rows) <= 1.
Proof.
  unfold unique_on.
  induction rows as [|r rest IH]; simpl; [lia|].
  intros U. apply andb_prop in U. destruct U as [fresh U].
  destruct (key r =? k) eqn:K; [|auto].
  apply String.eqb_eq in K. subst k.
  replace (filter (fun r' => key r' =? key r) rest) with (@nil R); [simpl; lia|].
  symmetry. apply negb_true_iff in fresh.
  clear -fresh. induction rest as [|x xs IH]; simpl in *; [reflexivity|].
  apply orb_false_elim in fresh. destruct fresh as [F1 F2].
  rewrite String.eqb_sym, F1. auto.
Qed.

(** What an authenticated user reads from [public.users]: the rows with the
    user's own id. *)
Lemma select_users (U : uuid) (filter_ : users.row -> bool) (db : Db) :
  select migration_policies (Some U) Users filter_ db
  = Some (filter (fun u => (users.id u =? U) && filter_ u) (public_users db)).
Proof.
  cbn. f_equal. apply filter_ext. intros u.
  rewrite andb_true_r, orb_false_r, String.eqb_sym. reflexivity.
Qed.

Lemma top_users_of (U : uuid) (db : Db) :
  Dashboard.top_users migration_policies (Some U) db
  = Some (map (fun u => (users.username u, users.points u))
            (firstn 5 (Dashboard.order_by_points_desc
                         (filter (fun u => users.id u =? U) (public_users db))))).
Proof.
  unfold Dashboard.top_users. rewrite select_users. cbn [option_map].
  do 4 f_equal. apply filter_ext. intros u. apply andb_true_r.
Qed.

(** C9.  What user U gets as leaderboard is determined by the rows of
    [public.users] whose id is U: two states that agree on these rows give U
    the same answer, whatever the rows of the other users are.  Every entry
    of the answer is the name and the points of a row with id U, and under
    the primary key there is at most one. *)
Theorem leaderboard_shows_own_row_only (U : uuid) (db1 db2 : Db) :
  filter (fun u => users.id u =? U) (public_users db1)
  = filter (fun u => users.id u =? U) (public_users db2) ->
  Dashboard.top_users migration_policies (Some U) db1
  = Dashboard.top_users migration_policies (Some U) db2
  /\ exists entries,
       Dashboard.top_users migration_policies (Some U) db1 = Some entries
       /\ (forall e, In e entries ->
             exists u, In u (public_users db1) /\ users.id u = U
                       /\ e = (users.username u, users.points u))
       /\ (unique_on users.id (public_users db1) = true -> length entries <= 1).
Proof.
  intros agree. rewrite !top_users_of, agree. split; [reflexivity|].
  eexists. split; [reflexivity|]. rewrite <- agree. split.
  - intros e He. apply in_map_iff in He. destruct He as [u [<- Hu]].
    apply in_firstn, in_order_by_points_desc, filter_In in Hu.
    destruct Hu as [Hu Hid]. apply String.eqb_eq in Hid.
    exists u. auto.
  - intros pk. rewrite length_map.
    rewrite length_firstn, length_order_by_points_desc.
    etransitivity; [apply Nat.le_min_r|].
    apply unique_on_selects_one, pk.
Qed.

Lemma leaderboard_shows_own_row_only_witness :
  Dashboard.top_users migration_policies (Some Scenario.alice) Scenario.seeded
  = Dashboard.top_users migration_policies (Some Scenario.alice) Scenario.later
  /\ exists entries,
       Dashboard.top_users migration_policies (Some Scenario.alice) Scenario.seeded
       = Some entries
       /\ (forall e, In e entries ->
             exists u, In u (public_users Scenario.seeded)
                       /\ users.id u = Scenario.alice
                       /\ e = (users.username u, users.points u))
       /\ (unique_on users.id (public_users Scenario.seeded) = true ->
           length entries <= 1).
Proof.
  apply (@leaderboard_shows_own_row_only Scenario.alice Scenario.seeded Scenario.later).
  reflexivity.
Defined.

(** ** Joining a room *)

Lemma consistent_unique_participants (db : Db) :
  consistent db = true ->
  unique_by same_room_and_user (public_room_participants db) = true.
Proof.
  unfold consistent, constraints. cbn [forallb snd]. intros H.
  repeat (apply andb_prop in H; destruct H as [? H]). assumption.
Qed.

Lemma duplicate_breaks_uniqueness {R} (same : R -> R -> bool) (p r : R)
    (rows : list R) :
  In p rows -> same p r = true -> unique_by same (rows ++ [r]) = false.
Proof.
  intros inp eq. induction rows as [|x rest IH]; simpl; [destruct inp|].
  destruct inp as [->|inp].
  - rewrite existsb_app. simpl. rewrite eq, orb_true_r. reflexivity.
  - rewrite (IH inp). apply andb_false_r.
Qed.

(** The insert of a participant row for a (room, user) pair that is stored
    already comes back with an error and changes nothing, whoever issues it
    and whatever the policies. *)
Lemma duplicate_participant_is_refused (pol : policies) (s : session) (db : Db)
    (p r : room_participants.row) :
  In p (public_room_participants db) ->
  room_participants.room_id p = room_participants.room_id r ->
  room_participants.user_id p = room_participants.user_id r ->
  exists e, execute pol s (Insert RoomParticipants r) db = (db, Some e).
Proof.
  intros inp room user. unfold execute.
  destruct (rls pol s db RoomParticipants [INSERT]) as [allowed|]; [|eauto].
  destruct (allowed r); [|eauto].
  match goal with
  | |- context [commit db ?new] =>
      destruct (commit_cases db new) as [[ok _]|[_ E]]; [|rewrite E; eauto]
  end.
  apply consistent_unique_participants in ok. cbn in ok.
  rewrite (duplicate_breaks_uniqueness same_room_and_user p r) in ok;
    [discriminate | exact inp |].
  unfold same_room_and_user. rewrite room, user, !String.eqb_refl. reflexivity.
Qed.

(** C6.  Let user U have a participant row [p].  Then an insert of another
    row for the same room and U is answered with an error and leaves the
    state as it was; and a join by U through the dashboard, with a code that
    resolves to that room, leaves the state as it was. *)
Theorem joining_twice_is_rejected (pol : policies) (U : uuid) (db : Db)
    (p : room_participants.row) :
  In p (public_room_participants db) ->
  room_participants.user_id p = U ->
  (forall id joined_at,
      exists e,
        execute pol (Some U)
          (Insert RoomParticipants
             (room_participants.mk id (room_participants.room_id p) U joined_at))
          db
        = (db, Some e))
  /\ (forall (d : defaults) (st : Dashboard.state) (room : rooms.row),
        single (select pol (Some U) Rooms
                  (fun r => rooms.code r =? Dashboard.roomCode st) db) = Some room ->
        rooms.id room = room_participants.room_id p ->
        fst (Dashboard.handleJoinRoom pol (Some U) d st db) = db).
Proof.
  intros inp user. split.
  - intros id joined_at.
    apply (duplicate_participant_is_refused pol (Some U) db p); auto.
  - intros d st room found same.
    unfold Dashboard.handleJoinRoom. rewrite found. cbn [fst].
    destruct (duplicate_participant_is_refused pol (Some U) db p
                (room_participants.mk (gen_random_uuid d) (rooms.id room) U
                   (Some (now d)))) as [e E]; auto.
    rewrite E. reflexivity.
Qed.

Lemma joining_twice_is_rejected_witness :
  (forall id joined_at,
      exists e,
        execute migration_policies (Some Scenario.alice)
          (Insert RoomParticipants
             (room_participants.mk id Scenario.room_a Scenario.alice joined_at))
          Scenario.seeded
        = (Scenario.seeded, Some e))
  /\ (forall (d : defaults) (st : Dashboard.state) (room : rooms.row),
        single (select migration_policies (Some Scenario.alice) Rooms
                  (fun r => rooms.code r =? Dashboard.roomCode st) Scenario.seeded)
        = Some room ->
        rooms.id room = Scenario.room_a ->
        fst (Dashboard.handleJoinRoom migration_policies (Some Scenario.alice)
               d st Scenario.seeded) = Scenario.seeded).
Proof.
  apply (@joining_twice_is_rejected migration_policies Scenario.alice
           Scenario.seeded Scenario.alice_in_a).
  - simpl. left. reflexivity.
  - reflexivity.
Defined.

(** The error the second join of Alice comes back with. *)
Example second_join_of_alice :
  execute migration_policies (Some Scenario.alice)
    (Insert RoomParticipants
       (room_participants.mk "eeeeeeee-0001" Scenario.room_a Scenario.alice (Some 50%Z)))
    Scenario.seeded
  = (Scenario.seeded,
     Some (constraint_violation ["room_participants_room_id_user_id_key"])).
Proof. vm_compute. reflexivity. Qed.

(** Only a signed-in user finds a room by its code. *)
Lemma anonymous_finds_no_room (filter_ : rooms.row -> bool) (db : Db) :
  select migration_policies None Rooms filter_ db = Some [].
Proof.
  cbn. f_equal. induction (public_rooms db); simpl; auto.
Qed.

(** C10.  When the code typed in resolves to a room, [handleJoinRoom] ends
    on that room's page with the error message of the dashboard untouched,
    in every state: the answer to the insert of the participant row has no
    part in it. *)
Theorem join_navigates_whatever_the_insert_answers (user : session) (d : defaults)
    (st : Dashboard.state) (db : Db) (room : rooms.row) :
  single (select migration_policies user Rooms
            (fun r => rooms.code r =? Dashboard.roomCode st) db) = Some room ->
  let st' := snd (Dashboard.handleJoinRoom migration_policies user d st db) in
  Dashboard.location st' = "/room/" ++ rooms.id room
  /\ Dashboard.error st' = Dashboard.error st
  /\ Dashboard.roomCode st' = Dashboard.roomCode st.
Proof.
  intros found. cbv zeta. unfold Dashboard.handleJoinRoom.
  destruct user as [uid|].
  - rewrite found. cbn. auto.
  - rewrite anonymous_finds_no_room in found. discriminate.
Qed.

(** Alice, already in room A, joins it again: the insert is refused (see
    [second_join_of_alice]) and she lands on the room's page all the same. *)
Lemma join_navigates_whatever_the_insert_answers_witness :
  let st' := snd (Dashboard.handleJoinRoom migration_policies (Some Scenario.alice)
                    Scenario.drawn (Scenario.dashboard_page "ABC123") Scenario.seeded) in
  Dashboard.location st' = "/room/" ++ Scenario.room_a
  /\ Dashboard.error st' = ""
  /\ Dashboard.roomCode st' = "ABC123".
Proof.
  apply (@join_navigates_whatever_the_insert_answers (Some Scenario.alice)
           Scenario.drawn (Scenario.dashboard_page "ABC123") Scenario.seeded
           (rooms.mk Scenario.room_a "ABC123" "Movie night" "waiting"
                     Scenario.alice (Some 20%Z))).
  reflexivity.
Defined.

(** ** Who sees the participants *)

(** The USING expression of "Participants can view room details" does not
    look at the row it protects: it asks whether the acting user has a
    participant row at all, among the rows its sub-select sees. *)
Lemma room_details_policy_ignores_the_room (public : schema) (s : session)
    (P : room_participants.row) :
  polqual participants_can_view_room_details public s P
  = existsb (fun m => auth_uid_eq s (room_participants.user_id m))
            (public RoomParticipants).
Proof.
  cbn. induction (public RoomParticipants) as [|m rest IH]; simpl; [reflexivity|].
  rewrite String.eqb_refl, IH. reflexivity.
Qed.

(** Its sub-select reads the table the policy is on, so no statement of a
    signed-in user that needs the SELECT policies of
    [public.room_participants] gets through; the same holds for
    [public.levels], whose policy reads [public.room_participants]. *)
Lemma participants_cannot_be_read (U : uuid) (filter_ : room_participants.row -> bool)
    (db : Db) :
  select migration_policies (Some U) RoomParticipants filter_ db = None.
Proof. reflexivity. Qed.

Lemma levels_cannot_be_read (U : uuid) (filter_ : levels.row -> bool) (db : Db) :
  select migration_policies (Some U) Levels filter_ db = None.
Proof. reflexivity. Qed.

Lemma inserts_need_no_read (U : uuid) (db : Db) :
  exists admits,
    rls migration_policies (Some U) db RoomParticipants [INSERT] = Some admits
    /\ forall r, admits r = (U =? room_participants.user_id r).
Proof.
  eexists. split; [reflexivity|]. intros r. cbn.
  rewrite andb_true_r, orb_false_r. reflexivity.
Qed.


(** ** Running the tests *)

Section Tests.

Variable new_Function : string -> string -> Room.completion Room.js_function.

(** For a boolean, a number or a string, [v.toString()] and [String(v)]
    give the same text, and a second [v.toString()] ends as the first. *)
Lemma toString_agrees_with_String_on_these (v : Room.js_value) (s : string) :
  (exists b, v = Room.JSBoolean b) \/ (exists n, v = Room.JSNumber n)
  \/ (exists t, v = Room.JSString t) ->
  (Room.call_toString v = Room.Normal (Room.JSString s)
   <-> Room.String_ v = Room.Normal s)
  /\ Room.call_toString_again v = Room.call_toString v.
Proof.
  intros [[b ->]|[[n ->]|[t ->]]]; cbn; (split; [|reflexivity]);
    split; intros H; inversion H; reflexivity.
Qed.

Lemma run_test_result (code : string) (test : test_case) (r : Room.TestResult) :
  Room.run_test new_Function code test = Some r
  <-> Room.callback new_Function code test = Room.Result r.
Proof.
  unfold Room.run_test.
  destruct (Room.callback new_Function code test);
    split; intros H; inversion H; reflexivity.
Qed.

(** [map] has the results of all the tests exactly when every call of the
    callback returns one. *)
Lemma map_calling_results (code : string) (tests : list test_case)
    (results : list Room.TestResult) :
  Room.map_returning (Room.run_test new_Function code) tests = Some results
  <-> Room.map_calling (Room.callback new_Function code) tests = Room.Results results.
Proof.
  revert results.
  induction tests as [|t rest IH]; intros results;
    cbn [Room.map_returning Room.map_calling].
  - split; intros H; inversion H; reflexivity.
  - destruct (Room.callback new_Function code t) as [r|m|] eqn:C.
    + rewrite (proj2 (run_test_result code t r) C).
      destruct (Room.map_returning (Room.run_test new_Function code) rest) as [ys|];
        destruct (Room.map_calling (Room.callback new_Function code) rest) as [rs|m|].
      * pose proof (proj1 (IH ys) eq_refl) as E. inversion E; subst.
        split; intros H; inversion H; reflexivity.
      * pose proof (proj1 (IH ys) eq_refl) as E. discriminate.
      * pose proof (proj1 (IH ys) eq_refl) as E. discriminate.
      * pose proof (proj2 (IH rs) eq_refl) as E. discriminate.
      * split; discriminate.
      * split; discriminate.
    + unfold Room.run_test. rewrite C. split; discriminate.
    + unfold Room.run_test. rewrite C. split; discriminate.
Qed.

(** When the callback throws.  Everything thrown inside its [try] is
    caught, so the callback throws only from its [catch]: when what was
    thrown by the compiler, by the compiled function or by one of the two
    calls of [toString] is a value whose [message] cannot be read. *)
Lemma callback_raises (code : string) (test : test_case) (m : string) :
  Room.callback new_Function code test = Room.Raises m
  <-> Room.tried new_Function code test = Room.Throw (Room.Unreadable m).
Proof.
  unfold Room.callback.
  destruct (Room.tried new_Function code test) as [r|[v|m']| |];
    split; intros H; inversion H; reflexivity.
Qed.

(** A test comes to a result unless the [try] block never ends, the
    submitted code interferes, or the callback throws. *)
Lemma run_test_returns (code : string) (test : test_case) :
  Room.run_test new_Function code test = None
  <-> Room.tried new_Function code test = Room.Diverge
      \/ Room.tried new_Function code test = Room.Interfere
      \/ exists m, Room.tried new_Function code test = Room.Throw (Room.Unreadable m).
Proof.
  unfold Room.run_test, Room.callback.
  destruct (Room.tried new_Function code test) as [r|[v|m']| |]; split;
    try discriminate; auto.
  - intros [H|[H|[m H]]]; discriminate.
  - intros [H|[H|[m H]]]; discriminate.
  - intros _. right. right. exists m'. reflexivity.
Qed.


End Tests.



(** [throw null;] makes the callback itself throw: no result is recorded,
    the message of the TypeError is shown and nothing is written. *)
Example throwing_null_ends_the_run :
  Room.run_test Scenario.host "throw null;" Scenario.dream_case = None
  /\ Room.runTests Scenario.host migration_policies (Some Scenario.alice)
       Scenario.drawn (Scenario.room_page "throw null;") Scenario.playing
     = Some (Scenario.playing,
             {| Room.currentLevel := Some (levels.set_status "active" Scenario.level_1);
                Room.code := "throw null;";
                Room.testResults := [];
                Room.isRunning := false;
                Room.error := "Cannot read properties of null (reading 'message')" |}).
Proof. vm_compute. split; reflexivity. Qed.

(** For the program that replaces [Array.prototype.every] the page's own
    source does not say what happens next (the replaced function decides
    whether the insert is sent): no result is given. *)
Example interfering_code_has_no_result :
  Room.runTests Scenario.host migration_policies (Some Scenario.alice)
    Scenario.drawn (Scenario.room_page Scenario.every_source) Scenario.playing
  = None.
Proof. vm_compute. reflexivity. Qed.

(** ** Writing the submission *)

Lemma unique_by_fresh {R} (same : R -> R -> bool) (r : R) (rows : list R) :
  unique_by same rows = true ->
  existsb (fun x => same x r) rows = false ->
  unique_by same (rows ++ [r]) = true.
Proof.
  induction rows as [|x rest IH]; simpl; [reflexivity|].
  intros U F. apply andb_prop in U. destruct U as [U1 U2].
  apply orb_false_elim in F. destruct F as [F1 F2].
  rewrite existsb_app. simpl. rewrite F1, orb_false_r, U1. simpl. auto.
Qed.

Lemma references_one_more {R T} (col : R -> uuid) (id : T -> uuid) (r : R)
    (rows : list R) (target : list T) :
  references col rows id target = true ->
  existsb (fun t => id t =? col r) target = true ->
  references col (rows ++ [r]) id target = true.
Proof.
  unfold references. intros old new. rewrite forallb_app, old. simpl.
  rewrite new. reflexivity.
Qed.

(** The insert of a submission by its owner goes through when the database
    hands out an unused id and the owner and the level are stored. *)
Lemma submission_is_stored (U : uuid) (db : Db) (r : submissions.row) :
  submissions.user_id r = U ->
  consistent db = true ->
  existsb (fun x => submissions.id x =? submissions.id r) (public_submissions db) = false ->
  existsb (fun u => users.id u =? U) (public_users db) = true ->
  existsb (fun l => levels.id l =? submissions.level_id r) (public_levels db) = true ->
  execute migration_policies (Some U) (Insert Submissions r) db
  = (with_submissions (public_submissions db ++ [r]) db, None).
Proof.
  intros owner ok fresh profile level. subst U.
  unfold execute. cbn -[commit]. rewrite String.eqb_refl. cbn -[commit].
  match goal with
  | |- context [commit db ?new] =>
      destruct (commit_cases db new) as [[_ E]|[bad _]]; [exact E|]
  end.
  exfalso. revert bad. apply eq_true_false_abs.
  unfold consistent, constraints in *. cbn [forallb snd] in *.
  cbn [with_submissions public_users public_rooms public_room_participants
       public_levels public_submissions].
  repeat (apply andb_prop in ok; destruct ok as [? ok]).
  repeat (apply andb_true_intro; split); try assumption.
  - apply unique_by_fresh; assumption.
  - apply references_one_more; assumption.
  - apply references_one_more; assumption.
Qed.

(** [map] over the tests returns when every call of the callback does. *)
Lemma map_returning_returns {A B} (f : A -> option B) (xs : list A) :
  (forall x, In x xs -> f x <> None) ->
  exists ys, Room.map_returning f xs = Some ys /\ length ys = length xs.
Proof.
  induction xs as [|x rest IH]; intros every; simpl.
  - exists []. auto.
  - destruct (f x) as [y|] eqn:F.
    + destruct IH as [ys [E L]]; [intros; apply every; right; assumption|].
      rewrite E. exists (y :: ys). simpl. auto.
    + exfalso. apply (every x); [left; reflexivity | exact F].
Qed.

(** What an insert into submissions can do to the state, whatever the
    policies: nothing, or append the row. *)
Lemma insert_submission_cases (pol : policies) (s : session)
    (r : submissions.row) (db : Db) :
  fst (execute pol s (Insert Submissions r) db) = db
  \/ fst (execute pol s (Insert Submissions r) db)
     = with_submissions (public_submissions db ++ [r]) db.
Proof.
  unfold execute.
  destruct (rls pol s db Submissions [INSERT]) as [allowed|]; [|auto].
  destruct (allowed r); [|auto].
  match goal with
  | |- context [commit db ?new] =>
      destruct (commit_cases db new) as [[_ E]|[_ E]]; rewrite E; auto
  end.
Qed.

Section Submitting.

Variable new_Function : string -> string -> Room.completion Room.js_function.


End Submitting.



(** * Further properties *)

(** ** What a client can change *)

(** Under the policies of the migrations a request either leaves the state
    as it is or is an insert that the INSERT policy of its table admits,
    and then it appends that one row. *)
Lemma accepted_change (s : session) (q : request) (db : Db) :
  fst (execute migration_policies s q db) = db
  \/ exists t r allowed,
       q = Insert t r
       /\ rls migration_policies s db t [INSERT] = Some allowed
       /\ allowed r = true
       /\ execute migration_policies s q db
          = (store t (from t db ++ [r]) db, None).
Proof.
  destruct q as [t r | t f limit patch | t f limit].
  - unfold execute.
    destruct (rls migration_policies s db t [INSERT]) as [allowed|] eqn:R;
      [|left; reflexivity].
    destruct (allowed r) eqn:A; [|left; reflexivity].
    match goal with
    | |- context [commit db ?new] =>
        destruct (commit_cases db new) as [[_ E]|[_ E]]; rewrite E
    end; [|left; reflexivity].
    right. exists t, r, allowed. auto.
  - left. apply update_is_without_effect.
  - left. apply delete_is_without_effect.
Qed.

(** What the INSERT policies of the migrations admit. *)
Lemma admitted_rows_name_the_caller (s : session) (db : Db) (t : table)
    (r : row_of t) (allowed : row_of t -> bool) :
  rls migration_policies s db t [INSERT] = Some allowed ->
  allowed r = true ->
  exists u, s = Some u /\ owner t r = Some u.
Proof.
  destruct t, s as [u|]; cbn; intros R A; inversion R; subst; clear R;
    cbn in A; try discriminate;
    rewrite ?andb_true_r, ?orb_false_r in A;
    apply String.eqb_eq in A; subst; eauto.
Qed.

(** Every statement keeps the constraints of the schema, whatever the
    policies. *)
Lemma execute_keeps_consistent (pol : policies) (s : session) (q : request)
    (db : Db) :
  consistent db = true -> consistent (fst (execute pol s q db)) = true.
Proof.
  intros ok. destruct q as [t r | t f limit patch | t f limit]; unfold execute.
  - destruct (rls pol s db t [INSERT]) as [allowed|]; [|exact ok].
    destruct (allowed r); [|exact ok].
    match goal with
    | |- context [commit db ?new] =>
        destruct (commit_cases db new) as [[C E]|[_ E]]; rewrite E; cbn; auto
    end.
  - destruct (rls pol s db t [UPDATE; SELECT]) as [allowed|]; [|exact ok].
    destruct (forallb _ _); [|exact ok].
    match goal with
    | |- context [commit db ?new] =>
        destruct (commit_cases db new) as [[C E]|[_ E]]; rewrite E; cbn; auto
    end.
  - destruct (rls pol s db t [DELETE; SELECT]) as [allowed|]; [|exact ok].
    match goal with
    | |- context [commit db ?new] =>
        destruct (commit_cases db new) as [[C E]|[_ E]]; rewrite E; cbn; auto
    end.
Qed.

Lemma execute_all_keeps_consistent (pol : policies)
    (qs : list (session * request)) (db : Db) :
  consistent db = true -> consistent (execute_all pol qs db) = true.
Proof.
  revert db. induction qs as [|[s q] rest IH]; intros db ok; simpl; [exact ok|].
  apply IH, execute_keeps_consistent, ok.
Qed.

Lemma accepted_insert_is_own (s : session) (t : table)
    (r : row_of t) (db db' : Db) :
  execute migration_policies s (Insert t r) db = (db', None) ->
  exists u, s = Some u /\ owner t r = Some u
            /\ db' = store t (from t db ++ [r]) db.
Proof.
  intros E. unfold execute in E.
  destruct (rls migration_policies s db t [INSERT]) as [allowed|] eqn:R;
    [|discriminate].
  destruct (allowed r) eqn:A; [|discriminate].
  destruct (admitted_rows_name_the_caller s db t r R A) as [u [S O]].
  exists u. repeat split; auto.
  match type of E with
  | commit db ?new = _ =>
      destruct (commit_cases db new) as [[_ E']|[_ E']]; rewrite E' in E;
        inversion E; reflexivity
  end.
Qed.

(** X1.  A client's insert is accepted only from a signed-in user and only
    for a row in that user's own name: the profile with the user's id, a
    room with the user as [created_by], a participant row or a submission
    with the user as [user_id].  No insert into [public.levels] is
    accepted. *)
Theorem accepted_inserts_name_the_caller (s : session) (t : table)
    (r : row_of t) (db db' : Db) :
  execute migration_policies s (Insert t r) db = (db', None) ->
  exists u, s = Some u /\ owner t r = Some u
            /\ db' = store t (from t db ++ [r]) db.
Proof. apply accepted_insert_is_own. Qed.

Lemma accepted_inserts_name_the_caller_witness :
  exists u, Some Scenario.alice = Some u
            /\ owner RoomParticipants
                 (room_participants.mk "eeeeeeee-0001" Scenario.room_b
                    Scenario.alice (Some 50%Z)) = Some u
            /\ with_room_participants
                 [Scenario.alice_in_a; Scenario.bob_in_b;
                  room_participants.mk "eeeeeeee-0001" Scenario.room_b
                    Scenario.alice (Some 50%Z)]
                 Scenario.seeded
               = store RoomParticipants
                   (from RoomParticipants Scenario.seeded
                      ++ [room_participants.mk "eeeeeeee-0001" Scenario.room_b
                            Scenario.alice (Some 50%Z)])
                   Scenario.seeded.
Proof.
  apply (@accepted_inserts_name_the_caller (Some Scenario.alice) RoomParticipants
           (room_participants.mk "eeeeeeee-0001" Scenario.room_b
              Scenario.alice (Some 50%Z))
           Scenario.seeded).
  reflexivity.
Defined.

(** The impersonations that are refused: Alice as Bob. *)
Example alice_cannot_act_as_bob :
  snd (execute migration_policies (Some Scenario.alice)
         (Insert Rooms (rooms.mk "eeeeeeee-0001" "NEW001" "Bob's room" "waiting"
                                 Scenario.bob (Some 50%Z)))
         Scenario.seeded)
  = Some (row_level_security "rooms")
  /\ snd (execute migration_policies (Some Scenario.alice)
            (Insert RoomParticipants
               (room_participants.mk "eeeeeeee-0001" Scenario.room_a
                                     Scenario.bob (Some 50%Z)))
            Scenario.seeded)
     = Some (row_level_security "room_participants").
Proof. vm_compute. split; reflexivity. Qed.

Lemma execute_on_levels (s : session) (q : request) (db : Db) :
  public_levels (fst (execute migration_policies s q db)) = public_levels db.
Proof.
  destruct (accepted_change s q db) as [->|(t & r & allowed & -> & R & A & E)];
    [reflexivity|].
  rewrite E. cbn [fst].
  destruct (admitted_rows_name_the_caller s db t r R A) as [u [_ O]].
  destruct t; cbn in O; try discriminate; reflexivity.
Qed.

(** X2.  No run of client requests, by whatever identities, changes
    [public.levels]: levels are neither added nor removed, and no level
    changes its status. *)
Theorem levels_are_never_written (qs : list (session * request)) (db : Db) :
  public_levels (execute_all migration_policies qs db) = public_levels db.
Proof.
  revert db. induction qs as [|[s q] rest IH]; intros db; simpl; [reflexivity|].
  rewrite IH. apply execute_on_levels.
Qed.

Lemma execute_grows (s : session) (q : request) (db : Db) (t : table) :
  exists added,
    from t (fst (execute migration_policies s q db)) = (from t db ++ added)%list.
Proof.
  destruct (accepted_change s q db) as [->|(t' & r & allowed & -> & _ & _ & E)].
  - exists []. rewrite app_nil_r. reflexivity.
  - rewrite E. cbn [fst].
    destruct t, t'; cbn;
      try (exists []; rewrite app_nil_r; reflexivity);
      eexists; reflexivity.
Qed.

Lemma execute_all_grows (qs : list (session * request)) (db : Db) (t : table) :
  exists added,
    from t (execute_all migration_policies qs db) = (from t db ++ added)%list.
Proof.
  revert db. induction qs as [|[s q] rest IH]; intros db; simpl.
  - exists []. rewrite app_nil_r. reflexivity.
  - destruct (execute_grows s q db t) as [a Ea].
    destruct (IH (fst (execute migration_policies s q db))) as [b Eb].
    exists (a ++ b)%list. rewrite Eb, Ea, app_assoc. reflexivity.
Qed.

(** X3.  Through any run of client requests the tables of users, rooms and
    participants only grow at their end: a profile keeps its points, a room
    its status, name and code, and nobody leaves a room. *)
Theorem profiles_rooms_and_participants_only_grow
    (qs : list (session * request)) (db : Db) :
  let db' := execute_all migration_policies qs db in
  (exists added, public_users db' = (public_users db ++ added)%list)
  /\ (exists added, public_rooms db' = (public_rooms db ++ added)%list)
  /\ (exists added,
        public_room_participants db'
        = (public_room_participants db ++ added)%list).
Proof.
  cbv zeta. split; [|split].
  - apply (execute_all_grows qs db Users).
  - apply (execute_all_grows qs db Rooms).
  - apply (execute_all_grows qs db RoomParticipants).
Qed.

(** X4.  A client that is not signed in changes nothing and reads nothing:
    every write request leaves the state as it is, and every read returns
    the empty list. *)
Theorem anonymous_client_reads_and_writes_nothing (db : Db) :
  (forall q, fst (execute migration_policies None q db) = db)
  /\ (forall t (filter_ : row_of t -> bool),
        select migration_policies None t filter_ db = Some []).
Proof.
  split.
  - intros q.
    destruct (accepted_change None q db) as [E|(t & r & allowed & _ & R & A & _)];
      [exact E|].
    destruct (admitted_rows_name_the_caller None db t r R A) as [u [S _]].
    discriminate.
  - intros t filter_. destruct t; cbn; f_equal;
      match goal with
      | |- filter _ ?l = [] => induction l; simpl; auto
      end.
Qed.

(** ** Profiles stay as they are *)

Lemma consistent_unique_users (db : Db) :
  consistent db = true -> unique_on users.id (public_users db) = true.
Proof.
  unfold consistent, constraints. cbn [forallb snd]. intros H.
  apply andb_prop in H. destruct H as [H _]. exact H.
Qed.

Lemma unique_on_later_rows {R} (key : R -> string) (x : R) (rows added : list R) :
  unique_on key (rows ++ added) = true ->
  In x rows ->
  filter (fun r => key r =? key x) added = [].
Proof.
  unfold unique_on. induction rows as [|y rest IH]; simpl; intros U inx;
    [destruct inx|].
  apply andb_prop in U. destruct U as [fresh U].
  destruct inx as [->|inx]; [|auto].
  apply negb_true_iff in fresh. rewrite existsb_app in fresh.
  apply orb_false_elim in fresh. destruct fresh as [_ fresh].
  clear -fresh. induction added as [|a rest IH]; simpl in *; [reflexivity|].
  apply orb_false_elim in fresh. destruct fresh as [F1 F2].
  rewrite String.eqb_sym, F1. auto.
Qed.

(** X5.  Whatever anybody does through the client, the leaderboard entry of
    a registered user stays what it is: in a consistent state in which U
    has a profile, no run of requests changes what the leaderboard query
    returns to U.  In particular the points shown never change. *)
Theorem leaderboard_entry_never_changes (U : uuid)
    (qs : list (session * request)) (db : Db) :
  consistent db = true ->
  existsb (fun u => users.id u =? U) (public_users db) = true ->
  Dashboard.top_users migration_policies (Some U)
    (execute_all migration_policies qs db)
  = Dashboard.top_users migration_policies (Some U) db.
Proof.
  intros ok registered. rewrite !top_users_of. do 4 f_equal.
  destruct (execute_all_grows qs db Users) as [added E].
  cbn [from] in E. rewrite E, filter_app.
  change (row_of Users) with users.row in *.
  apply existsb_exists in registered. destruct registered as [x [inx idx]].
  apply String.eqb_eq in idx. subst U.
  rewrite (unique_on_later_rows users.id x (public_users db) added);
    [apply app_nil_r | | exact inx].
  rewrite <- E. apply consistent_unique_users.
  apply execute_all_keeps_consistent, ok.
Qed.

Lemma leaderboard_entry_never_changes_witness :
  Dashboard.top_users migration_policies (Some Scenario.alice)
    (execute_all migration_policies
       [ (Some Scenario.bob,
          Update Users (fun _ => true) None
            (fun u => users.mk (users.id u) (users.username u) (Some 0%Z)
                               (users.current_level u) (users.created_at u)));
         (Some Scenario.alice,
          Insert Submissions
            (submissions.mk "eeeeeeee-0001" Scenario.alice "cccccccc-0001"
               "return 1;" "completed" (Some 100%Z) (Some 50%Z))) ]
       Scenario.seeded)
  = Dashboard.top_users migration_policies (Some Scenario.alice) Scenario.seeded.
Proof.
  apply (@leaderboard_entry_never_changes Scenario.alice); reflexivity.
Defined.

(** ** Joining, from the first time on *)

Lemma select_rooms (U : uuid) (filter_ : rooms.row -> bool) (db : Db) :
  select migration_policies (Some U) Rooms filter_ db
  = Some (filter filter_ (public_rooms db)).
Proof. cbn. f_equal. Qed.

(** X6.  A code that no room has is answered with "Room not found": nothing
    is written and the dashboard stays where it is. *)
Theorem unknown_code_is_not_found (user : session) (d : defaults)
    (st : Dashboard.state) (db : Db) :
  existsb (fun r => rooms.code r =? Dashboard.roomCode st) (public_rooms db) = false ->
  Dashboard.handleJoinRoom migration_policies user d st db
  = (db, Dashboard.setError "Room not found" st).
Proof.
  intros unknown. unfold Dashboard.handleJoinRoom.
  assert (none : select migration_policies user Rooms
                   (fun r => rooms.code r =? Dashboard.roomCode st) db = Some []).
  { destruct user as [U|].
    - rewrite select_rooms. f_equal.
      induction (public_rooms db) as [|r rest IH]; simpl in *; [reflexivity|].
      apply orb_false_elim in unknown. destruct unknown as [F1 F2].
      rewrite F1. auto.
    - apply anonymous_finds_no_room. }
  rewrite none. reflexivity.
Qed.

Lemma unknown_code_is_not_found_witness :
  Dashboard.handleJoinRoom migration_policies (Some Scenario.alice)
    Scenario.drawn (Scenario.dashboard_page "ZZZZZZ") Scenario.seeded
  = (Scenario.seeded,
     Dashboard.setError "Room not found" (Scenario.dashboard_page "ZZZZZZ")).
Proof.
  apply (@unknown_code_is_not_found (Some Scenario.alice) Scenario.drawn
           (Scenario.dashboard_page "ZZZZZZ") Scenario.seeded).
  reflexivity.
Defined.

Lemma unique_on_finds_it {R} (key : R -> string) (x : R) (rows : list R) :
  unique_on key rows = true -> In x rows ->
  filter (fun r => key r =? key x) rows = [x].
Proof.
  unfold unique_on. induction rows as [|y rest IH]; simpl; intros U inx;
    [destruct inx|].
  apply andb_prop in U. destruct U as [fresh U].
  destruct inx as [->|inx].
  - rewrite String.eqb_refl. f_equal.
    apply negb_true_iff in fresh.
    clear -fresh. induction rest as [|a rest IH]; simpl in *; [reflexivity|].
    apply orb_false_elim in fresh. destruct fresh as [F1 F2].
    rewrite String.eqb_sym, F1. auto.
  - destruct (key y =? key x) eqn:K; [|auto].
    exfalso. apply negb_true_iff in fresh.
    apply String.eqb_eq in K.
    assert (existsb (fun r' => key y =? key r') rest = true).
    { apply existsb_exists. exists x. split; [exact inx|].
      rewrite K. apply String.eqb_refl. }
    congruence.
Qed.

Lemma consistent_unique_codes (db : Db) :
  consistent db = true -> unique_on rooms.code (public_rooms db) = true.
Proof.
  unfold consistent, constraints. cbn [forallb snd]. intros H.
  do 3 (apply andb_prop in H; destruct H as [_ H]).
  apply andb_prop in H. destruct H as [H _]. exact H.
Qed.

(** The insert of a participant row by the user it names goes through when
    the id is unused, the room and the user are stored and the user is not
    in the room yet. *)
Lemma participant_is_stored (U : uuid) (db : Db) (r : room_participants.row) :
  room_participants.user_id r = U ->
  consistent db = true ->
  existsb (fun p => room_participants.id p =? room_participants.id r)
          (public_room_participants db) = false ->
  existsb (fun x => rooms.id x =? room_participants.room_id r) (public_rooms db) = true ->
  existsb (fun u => users.id u =? U) (public_users db) = true ->
  existsb (fun p => same_room_and_user p r) (public_room_participants db) = false ->
  execute migration_policies (Some U) (Insert RoomParticipants r) db
  = (with_room_participants (public_room_participants db ++ [r]) db, None).
Proof.
  intros owner_ ok fresh room_ profile new. subst U.
  unfold execute. cbn -[commit]. rewrite String.eqb_refl. cbn -[commit].
  match goal with
  | |- context [commit db ?new] =>
      destruct (commit_cases db new) as [[_ E]|[bad _]]; [exact E|]
  end.
  exfalso. revert bad. apply eq_true_false_abs.
  unfold consistent, constraints in *. cbn [forallb snd] in *.
  cbn [with_room_participants public_users public_rooms public_room_participants
       public_levels public_submissions].
  repeat (apply andb_prop in ok; destruct ok as [? ok]).
  repeat (apply andb_true_intro; split); try assumption.
  - apply unique_by_fresh; assumption.
  - apply references_one_more; assumption.
  - apply references_one_more; assumption.
  - apply unique_by_fresh; assumption.
Qed.

(** X7.  The first join of a room and the one after it.  In a consistent
    state, a signed-in user U with a profile who types the code of a stored
    room in which U is not yet gets exactly one participant row for that
    room appended and lands on the room's page; typing the code again from
    there leaves the state as it is. *)
Theorem first_join_adds_one_participant (U : uuid) (d d' : defaults)
    (st : Dashboard.state) (db : Db) (r : rooms.row) :
  consistent db = true ->
  In r (public_rooms db) ->
  rooms.code r = Dashboard.roomCode st ->
  existsb (fun u => users.id u =? U) (public_users db) = true ->
  existsb (fun p => room_participants.id p =? gen_random_uuid d)
          (public_room_participants db) = false ->
  existsb (fun p => (room_participants.room_id p =? rooms.id r)
                    && (room_participants.user_id p =? U))
          (public_room_participants db) = false ->
  let joined :=
    with_room_participants
      (public_room_participants db
         ++ [room_participants.mk (gen_random_uuid d) (rooms.id r) U (Some (now d))])
      db in
  Dashboard.handleJoinRoom migration_policies (Some U) d st db
  = (joined, Dashboard.navigate ("/room/" ++ rooms.id r) st)
  /\ fst (Dashboard.handleJoinRoom migration_policies (Some U) d' st joined) = joined.
Proof.
  intros ok stored code profile fresh new. cbv zeta.
  assert (found : forall db0 : Db,
             public_rooms db0 = public_rooms db ->
             single (select migration_policies (Some U) Rooms
                       (fun x => rooms.code x =? Dashboard.roomCode st) db0) = Some r).
  { intros db0 same. rewrite select_rooms, same, <- code.
    change (row_of Rooms) with rooms.row.
    rewrite (unique_on_finds_it rooms.code r (public_rooms db));
      [reflexivity | apply consistent_unique_codes, ok | exact stored]. }
  split.
  - unfold Dashboard.handleJoinRoom. rewrite (found db eq_refl).
    rewrite participant_is_stored with (U := U); auto.
    apply existsb_exists. exists r. split; [exact stored | apply String.eqb_refl].
  - unfold Dashboard.handleJoinRoom.
    match goal with
    | |- context [select _ _ _ _ ?db1] => rewrite (found db1 eq_refl)
    end. cbn [fst].
    match goal with
    | |- fst (execute _ _ (Insert _ ?row) ?db1) = _ =>
        destruct (duplicate_participant_is_refused migration_policies (Some U) db1
                    (room_participants.mk (gen_random_uuid d) (rooms.id r) U
                       (Some (now d))) row) as [e E]
    end; try reflexivity.
    + cbn. apply in_or_app. right. left. reflexivity.
    + rewrite E. reflexivity.
Qed.

Lemma first_join_adds_one_participant_witness :
  let joined :=
    with_room_participants
      [Scenario.alice_in_a; Scenario.bob_in_b;
       room_participants.mk "eeeeeeee-0001" Scenario.room_b Scenario.alice (Some 50%Z)]
      Scenario.seeded in
  Dashboard.handleJoinRoom migration_policies (Some Scenario.alice)
    Scenario.drawn (Scenario.dashboard_page "XYZ789") Scenario.seeded
  = (joined,
     Dashboard.navigate ("/room/" ++ Scenario.room_b)
       (Scenario.dashboard_page "XYZ789"))
  /\ fst (Dashboard.handleJoinRoom migration_policies (Some Scenario.alice)
            {| gen_random_uuid := "eeeeeeee-0002"; now := 60%Z |}
            (Scenario.dashboard_page "XYZ789") joined) = joined.
Proof.
  apply (@first_join_adds_one_participant Scenario.alice Scenario.drawn
           {| gen_random_uuid := "eeeeeeee-0002"; now := 60%Z |}
           (Scenario.dashboard_page "XYZ789") Scenario.seeded
           (rooms.mk Scenario.room_b "XYZ789" "Sequel" "active" Scenario.bob
                     (Some 21%Z)));
    try reflexivity.
  simpl. right. left. reflexivity.
Defined.

(** ** More about running the tests *)

Lemma select_submissions (U : uuid) (filter_ : submissions.row -> bool) (db : Db) :
  select migration_policies (Some U) Submissions filter_ db
  = Some (filter (fun r => (submissions.user_id r =? U) && filter_ r)
                 (public_submissions db)).
Proof.
  cbn. f_equal. apply filter_ext. intros r.
  rewrite andb_true_r, orb_false_r, String.eqb_sym. reflexivity.
Qed.

Section Running.

Variable new_Function : string -> string -> Room.completion Room.js_function.

(** A run whose tests all passed, for a signed-in user whose insert the
    database accepts. *)
Lemma passing_run (U : uuid) (d : defaults) (st : Room.state) (db : Db)
    (level : levels.row) (results : list Room.TestResult) :
  Room.currentLevel st = Some level ->
  Room.map_returning (Room.run_test new_Function (Room.code st))
                     (levels.test_cases level) = Some results ->
  forallb Room.passed results = true ->
  consistent db = true ->
  existsb (fun x => submissions.id x =? gen_random_uuid d)
          (public_submissions db) = false ->
  existsb (fun u => users.id u =? U) (public_users db) = true ->
  existsb (fun l => levels.id l =? levels.id level) (public_levels db) = true ->
  Room.runTests new_Function migration_policies (Some U) d st db
  = Some (with_submissions
            (public_submissions db
               ++ [submissions.mk (gen_random_uuid d) U (levels.id level)
                     (Room.code st) "completed" (Some 100%Z) (Some (now d))])
            db,
          Room.setIsRunning false
            (Room.setTestResults results
               (Room.setTestResults [] (Room.setIsRunning true st)))).
Proof.
  intros current finished pass ok fresh profile stored.
  apply map_calling_results in finished.
  unfold Room.runTests.
  cbn [Room.currentLevel Room.setTestResults Room.setIsRunning Room.code].
  rewrite current, finished, pass.
  rewrite submission_is_stored with (U := U); auto.
Qed.

(** X8.  Running the tests touches nothing but the submissions.  Whenever
    [runTests] returns a result, which is whenever the tests end and the
    submitted code has done nothing but compute, then under whatever
    policies the profiles (and so everybody's points), the rooms, the
    participants and the levels are as before, the submissions are as before
    or have one row more, which is 'completed' with 100 points, and the page
    is no longer running. *)
Theorem running_tests_touches_submissions_only (pol : policies) (user : session)
    (d : defaults) (st st' : Room.state) (db db' : Db) :
  Room.runTests new_Function pol user d st db = Some (db', st') ->
  public_users db' = public_users db
  /\ public_rooms db' = public_rooms db
  /\ public_room_participants db' = public_room_participants db
  /\ public_levels db' = public_levels db
  /\ (public_submissions db' = public_submissions db
      \/ exists row,
           public_submissions db' = (public_submissions db ++ [row])%list
           /\ submissions.status row = "completed"
           /\ submissions.points row = Some 100%Z
           /\ Some (submissions.user_id row) = user)
  /\ Room.isRunning st' = false.
Proof.
  unfold Room.runTests.
  cbn [Room.currentLevel Room.setTestResults Room.setIsRunning Room.code].
  destruct (Room.currentLevel st) as [level|].
  - destruct (Room.map_calling _ _) as [results|m|]; [| |discriminate].
    + destruct (forallb Room.passed results).
      * destruct user as [uid|].
        -- match goal with
           | |- context [execute pol ?s (Insert Submissions ?r) db] =>
               destruct (insert_submission_cases pol s r db) as [E|E]; rewrite E
           end; intros H; injection H as <- <-.
           ++ repeat split; auto.
           ++ repeat split; auto. right. eexists. repeat split; reflexivity.
        -- intros H. injection H as <- <-. repeat split; auto.
      * intros H. injection H as <- <-. repeat split; auto.
    + intros H. injection H as <- <-. repeat split; auto.
  - intros H. injection H as <- <-. repeat split; auto.
Qed.

(** X9.  A level without test cases accepts whatever is submitted: the
    source text is not even compiled, and a signed-in user whose insert the
    database accepts gets a 'completed' submission with 100 points. *)
Theorem level_without_tests_accepts_anything (U : uuid) (d : defaults)
    (st : Room.state) (db : Db) (level : levels.row) :
  Room.currentLevel st = Some level ->
  levels.test_cases level = [] ->
  consistent db = true ->
  existsb (fun x => submissions.id x =? gen_random_uuid d)
          (public_submissions db) = false ->
  existsb (fun u => users.id u =? U) (public_users db) = true ->
  existsb (fun l => levels.id l =? levels.id level) (public_levels db) = true ->
  exists st',
    Room.runTests new_Function migration_policies (Some U) d st db
    = Some (with_submissions
              (public_submissions db
                 ++ [submissions.mk (gen_random_uuid d) U (levels.id level)
                       (Room.code st) "completed" (Some 100%Z) (Some (now d))])
              db,
            st')
    /\ Room.testResults st' = [].
Proof.
  intros current none ok fresh profile stored.
  rewrite passing_run with (level := level) (results := []); auto.
  - eexists. split; reflexivity.
  - rewrite none. reflexivity.
Qed.


(** X11.  Nothing keeps a user from collecting the same level twice: a
    second passing run, with a new id drawn, appends a second 'completed'
    submission of 100 points for the same user and level. *)
Theorem passing_twice_writes_two_submissions (U : uuid) (d d' : defaults)
    (st : Room.state) (db : Db) (level : levels.row)
    (results : list Room.TestResult) :
  Room.currentLevel st = Some level ->
  Room.map_returning (Room.run_test new_Function (Room.code st))
                     (levels.test_cases level) = Some results ->
  forallb Room.passed results = true ->
  consistent db = true ->
  existsb (fun x => submissions.id x =? gen_random_uuid d)
          (public_submissions db) = false ->
  existsb (fun x => submissions.id x =? gen_random_uuid d')
          (public_submissions db) = false ->
  gen_random_uuid d <> gen_random_uuid d' ->
  existsb (fun u => users.id u =? U) (public_users db) = true ->
  existsb (fun l => levels.id l =? levels.id level) (public_levels db) = true ->
  exists db1 st1 db2 st2,
    Room.runTests new_Function migration_policies (Some U) d st db = Some (db1, st1)
    /\ Room.runTests new_Function migration_policies (Some U) d' st db1
       = Some (db2, st2)
    /\ public_submissions db2
       = (public_submissions db
            ++ [ submissions.mk (gen_random_uuid d) U (levels.id level)
                   (Room.code st) "completed" (Some 100%Z) (Some (now d));
                 submissions.mk (gen_random_uuid d') U (levels.id level)
                   (Room.code st) "completed" (Some 100%Z) (Some (now d')) ])%list.
Proof.
  intros current finished pass ok fresh fresh' other profile stored.
  do 4 eexists. split; [|split].
  - apply passing_run with (level := level) (results := results); auto.
  - apply passing_run with (level := level) (results := results); auto.
    + match goal with
      | |- consistent ?new = true =>
          replace new with
            (fst (execute migration_policies (Some U)
                    (Insert Submissions
                       (submissions.mk (gen_random_uuid d) U (levels.id level)
                          (Room.code st) "completed" (Some 100%Z) (Some (now d))))
                    db))
      end.
      * apply execute_keeps_consistent, ok.
      * rewrite submission_is_stored with (U := U); auto.
    + cbn [with_submissions public_submissions].
      rewrite existsb_app, fresh'. cbn.
      rewrite orb_false_r. apply String.eqb_neq. exact other.
  - cbn [with_submissions public_submissions].
    rewrite <- app_assoc. reflexivity.
Qed.

End Running.

(** ** Registration *)

Lemma references_more_targets {R T} (col : R -> uuid) (id : T -> uuid)
    (rows : list R) (target added : list T) :
  references col rows id target = true ->
  references col rows id (target ++ added) = true.
Proof.
  unfold references. intros old. rewrite forallb_forall in *.
  intros r inr. rewrite existsb_app, (old r inr). reflexivity.
Qed.

Lemma consistent_unique_usernames (db : Db) :
  consistent db = true -> unique_on users.username (public_users db) = true.
Proof.
  unfold consistent, constraints. cbn [forallb snd]. intros H.
  apply andb_prop in H. destruct H as [_ H].
  apply andb_prop in H. destruct H as [H _]. exact H.
Qed.

(** The insert of one's own profile goes through when the id and the
    username are unused. *)
Lemma profile_is_stored (U : uuid) (db : Db) (r : users.row) :
  users.id r = U ->
  consistent db = true ->
  existsb (fun u => users.id u =? users.id r) (public_users db) = false ->
  existsb (fun u => users.username u =? users.username r) (public_users db) = false ->
  execute migration_policies (Some U) (Insert Users r) db
  = (store Users (public_users db ++ [r]) db, None).
Proof.
  intros owner_ ok fresh name. subst U.
  unfold execute. cbn -[commit]. rewrite String.eqb_refl. cbn -[commit].
  match goal with
  | |- context [commit db ?new] =>
      destruct (commit_cases db new) as [[_ E]|[bad _]]; [exact E|]
  end.
  exfalso. revert bad. apply eq_true_false_abs.
  unfold consistent, constraints in *. cbn [forallb snd] in *.
  cbn [public_users public_rooms public_room_participants
       public_levels public_submissions].
  repeat (apply andb_prop in ok; destruct ok as [? ok]).
  repeat (apply andb_true_intro; split); try assumption.
  - apply unique_by_fresh; assumption.
  - apply unique_by_fresh; assumption.
  - apply references_more_targets; assumption.
  - apply references_more_targets; assumption.
  - apply references_more_targets; assumption.
Qed.

(** An insert of a profile with a username that is taken is refused,
    whatever the policies. *)
Lemma taken_username_is_refused (pol : policies) (s : session) (db : Db)
    (u r : users.row) :
  In u (public_users db) ->
  users.username u = users.username r ->
  exists e, execute pol s (Insert Users r) db = (db, Some e).
Proof.
  intros inu same. unfold execute.
  destruct (rls pol s db Users [INSERT]) as [allowed|]; [|eauto].
  destruct (allowed r); [|eauto].
  match goal with
  | |- context [commit db ?new] =>
      destruct (commit_cases db new) as [[ok _]|[_ E]]; [|rewrite E; eauto]
  end.
  apply consistent_unique_usernames in ok. cbn in ok.
  unfold unique_on in ok.
  rewrite (duplicate_breaks_uniqueness
             (fun a b => users.username a =? users.username b) u r) in ok;
    [discriminate | exact inu |].
  rewrite same. apply String.eqb_refl.
Qed.

Section Registering.

Variable message : response_error -> string.

(** X12.  A registration that goes through.  When the identity provider
    answers with a new identity and a session, in a consistent state that
    has neither the id nor the username yet, the form stores exactly one
    profile for that identity, with 0 points and level 1, and goes to the
    dashboard, where the leaderboard of the new user is the one entry
    (username, 0). *)
Theorem registration_stores_one_profile (before : session) (id : uuid)
    (now : timestamptz) (username : string) (st : Register.state) (db : Db) :
  consistent db = true ->
  existsb (fun u => users.id u =? id) (public_users db) = false ->
  existsb (fun u => users.username u =? username) (public_users db) = false ->
  let registered :=
    store Users
      (public_users db ++ [users.mk id username (Some 0%Z) (Some 1%Z) (Some now)])
      db in
  Register.handleSubmit message migration_policies before
    (AuthContext.authData (Some id) true) now username st db
  = (registered,
     {| Register.error := Register.error st; Register.location := "/dashboard" |})
  /\ Dashboard.top_users migration_policies (Some id) registered
     = Some [(username, Some 0%Z)].
Proof.
  intros ok fresh name. cbv zeta. split.
  - unfold Register.handleSubmit, AuthContext.signUp.
    cbn [AuthContext.session_after].
    rewrite profile_is_stored with (U := id); auto.
  - rewrite top_users_of. cbn [store public_users].
    rewrite filter_app.
    replace (filter (fun u => users.id u =? id) (public_users db)) with (@nil users.row).
    + cbn. rewrite String.eqb_refl. reflexivity.
    + symmetry. clear -fresh.
      induction (public_users db) as [|u rest IH]; simpl in *; [reflexivity|].
      apply orb_false_elim in fresh. destruct fresh as [F1 F2].
      rewrite F1. auto.
Qed.

(** X13.  The form goes to the dashboard exactly when the profile has been
    stored.  Whatever the policies and whatever the identity provider
    answers, [handleSubmit] either appends the profile of the new identity
    and navigates, leaving the error message alone, or leaves the stored
    state as it is, stays on the form and shows what was thrown. *)
Theorem registration_navigates_iff_profile_stored (pol : policies)
    (before : session) (answer : AuthContext.signUp_answer)
    (now : timestamptz) (username : string) (st : Register.state) (db : Db) :
  let result := Register.handleSubmit message pol before answer now username st db in
  (exists id started,
      answer = AuthContext.authData (Some id) started
      /\ fst result
         = store Users
             (public_users db
                ++ [users.mk id username (Some 0%Z) (Some 1%Z) (Some now)])
             db
      /\ snd result
         = {| Register.error := Register.error st;
              Register.location := "/dashboard" |})
  \/ (fst result = db
      /\ Register.location (snd result) = Register.location st).
Proof.
  cbv zeta. unfold Register.handleSubmit, AuthContext.signUp.
  destruct answer as [m|[id|] started]; try (right; cbn; auto; fail).
  unfold execute.
  destruct (rls pol _ db Users [INSERT]) as [allowed|]; [|right; cbn; auto].
  destruct (allowed _); [|right; cbn; auto].
  match goal with
  | |- context [commit db ?new] =>
      destruct (commit_cases db new) as [[_ E]|[_ E]]; rewrite E
  end.
  - left. exists id, started. cbn. auto.
  - right. cbn. auto.
Qed.

(** X14.  A username that is taken.  Whatever the policies, when the
    identity provider has created the identity and the username is that of
    a stored profile, no profile is written: the identity is left without
    one, the form stays where it is and shows the error of the insert. *)
Theorem taken_username_leaves_identity_without_profile (pol : policies)
    (before : session) (id : uuid) (started : bool) (now : timestamptz)
    (username : string) (st : Register.state) (db : Db) :
  existsb (fun u => users.username u =? username) (public_users db) = true ->
  exists e,
    Register.handleSubmit message pol before
      (AuthContext.authData (Some id) started) now username st db
    = (db, {| Register.error := message (database_error e);
              Register.location := Register.location st |}).
Proof.
  intros taken. apply existsb_exists in taken. destruct taken as [u [inu same]].
  apply String.eqb_eq in same.
  unfold Register.handleSubmit, AuthContext.signUp.
  destruct (taken_username_is_refused pol
              (AuthContext.session_after before
                 (AuthContext.authData (Some id) started))
              db u
              (users.mk id username (Some 0%Z) (Some 1%Z) (Some now)) inu same)
    as [e E].
  rewrite E. exists e. reflexivity.
Qed.

(** X15.  Without a session no profile.  Under the policies of the
    migrations [signUp] returns only if the profile was inserted by the new
    identity itself: the identity provider must have started a session with
    the sign-up (or the client was signed in as that identity before).  When
    the address awaits confirmation and no session is started, [signUp]
    throws and the identity is left without a profile. *)
Theorem registration_needs_a_session (before : session)
    (answer result : AuthContext.signUp_answer) (now : timestamptz)
    (username : string) (db db' : Db) :
  AuthContext.signUp message migration_policies before answer now username db
  = (db', AuthContext.Returned result) ->
  exists id started,
    answer = AuthContext.authData (Some id) started
    /\ (started = true \/ before = Some id).
Proof.
  unfold AuthContext.signUp.
  destruct answer as [m|[id|] started]; try discriminate.
  destruct (execute migration_policies _ _ db) as [db1 [e|]] eqn:E;
    [discriminate|].
  intros _. apply accepted_insert_is_own in E.
  destruct E as (u & S & O & _). cbn in O. inversion O; subst u.
  exists id, started. split; [reflexivity|].
  destruct started; [left; reflexivity|right; exact S].
Qed.

End Registering.

(** ** Creating a room *)

(** The insert of a room by its creator, read back, goes through when the
    id and the code are unused and the creator has a profile. *)
Lemma room_is_stored (U : uuid) (db : Db) (r : rooms.row) :
  rooms.created_by r = U ->
  consistent db = true ->
  existsb (fun x => rooms.id x =? rooms.id r) (public_rooms db) = false ->
  existsb (fun x => rooms.code x =? rooms.code r) (public_rooms db) = false ->
  existsb (fun u => users.id u =? U) (public_users db) = true ->
  insert_returning migration_policies (Some U) Rooms r db
  = (with_rooms (public_rooms db ++ [r]) db, Ok r).
Proof.
  intros owner_ ok fresh code profile. subst U.
  unfold insert_returning. cbn -[commit]. rewrite String.eqb_refl. cbn -[commit].
  match goal with
  | |- context [commit db ?new] =>
      destruct (commit_cases db new) as [[_ E]|[bad _]]; [rewrite E; reflexivity|]
  end.
  exfalso. revert bad. apply eq_true_false_abs.
  unfold consistent, constraints in *. cbn [forallb snd] in *.
  cbn [with_rooms public_users public_rooms public_room_participants
       public_levels public_submissions].
  repeat (apply andb_prop in ok; destruct ok as [? ok]).
  repeat (apply andb_true_intro; split); try assumption.
  - apply unique_by_fresh; assumption.
  - apply unique_by_fresh; assumption.
  - apply references_one_more; assumption.
  - apply references_more_targets; assumption.
  - apply references_more_targets; assumption.
Qed.

(** No policy admits an insert into [public.levels]. *)
Lemma levels_cannot_be_inserted (s : session) (l : levels.row)
    (rest : list levels.row) (db : Db) :
  insert_all migration_policies s Levels (l :: rest) db
  = (db, Some (row_level_security "levels")).
Proof. destruct s; reflexivity. Qed.

Section Creating.

Variable message : response_error -> string.

(** X16.  Creating a room leaves a room without levels.  In a consistent
    state, for a signed-in user with a profile and a code and an id that
    are unused, [createRoom] stores the room, with status 'waiting' and the
    user as creator, and then fails on the insert of the default levels,
    which [public.levels] has no policy for: no level is stored, the room
    stays, the form stays open and shows the error. *)
Theorem created_room_has_no_levels (U : uuid) (d d1 d2 d3 : defaults)
    (st : AdminRooms.state) (db : Db) :
  consistent db = true ->
  existsb (fun u => users.id u =? U) (public_users db) = true ->
  existsb (fun x => rooms.id x =? gen_random_uuid d) (public_rooms db) = false ->
  existsb (fun x => rooms.code x =? AdminRooms.newRoom_code st) (public_rooms db) = false ->
  AdminRooms.createRoom message migration_policies (Some U) d d1 d2 d3 st db
  = (with_rooms
       (public_rooms db
          ++ [rooms.mk (gen_random_uuid d) (AdminRooms.newRoom_code st)
                (AdminRooms.newRoom_name st) "waiting" U (Some (now d))])
       db,
     AdminRooms.setError (message (database_error (row_level_security "levels"))) st).
Proof.
  intros ok profile fresh code.
  unfold AdminRooms.createRoom.
  rewrite room_is_stored with (U := U); auto.
Qed.

(** X17.  What [createRoom] can leave behind, whatever the policies: nothing
    new; or the new room alone, waiting and in the caller's name, with the
    form still open; or the new room with its three default levels, all
    waiting, appended in the order of the source, with the form closed and
    cleared.  The levels are stored all three or not at all, and never
    without the room. *)
Theorem create_room_outcomes (pol : policies) (user : session)
    (d d1 d2 d3 : defaults) (st : AdminRooms.state) (db : Db) :
  let result := AdminRooms.createRoom message pol user d d1 d2 d3 st db in
  (fst result = db
   /\ AdminRooms.showNewRoom (snd result) = AdminRooms.showNewRoom st)
  \/ exists uid,
       user = Some uid
       /\ let room := rooms.mk (gen_random_uuid d) (AdminRooms.newRoom_code st)
                        (AdminRooms.newRoom_name st) "waiting" uid (Some (now d)) in
          (fst result = with_rooms (public_rooms db ++ [room]) db
           /\ AdminRooms.showNewRoom (snd result) = AdminRooms.showNewRoom st)
          \/ (fst result
              = with_levels
                  (public_levels db
                     ++ AdminRooms.default_levels (gen_random_uuid d) d1 d2 d3)
                  (with_rooms (public_rooms db ++ [room]) db)
              /\ snd result = AdminRooms.close_form st
              /\ map levels.status
                     (AdminRooms.default_levels (gen_random_uuid d) d1 d2 d3)
                 = ["waiting"; "waiting"; "waiting"]).
Proof.
  cbv zeta. unfold AdminRooms.createRoom.
  destruct user as [uid|]; [|left; split; reflexivity].
  unfold insert_returning.
  destruct (rls pol (Some uid) db Rooms [INSERT; SELECT]) as [allowed|];
    [|left; split; reflexivity].
  destruct (allowed _); [|left; split; reflexivity].
  match goal with
  | |- context [commit db ?new] =>
      destruct (commit_cases db new) as [[_ E]|[_ E]]; rewrite E
  end; [|left; split; reflexivity].
  right. exists uid. split; [reflexivity|].
  unfold insert_all. cbn [rooms.id].
  match goal with
  | |- context [rls pol (Some uid) ?db1 Levels [INSERT]] =>
      destruct (rls pol (Some uid) db1 Levels [INSERT]) as [allowed'|];
        [|left; split; reflexivity]
  end.
  destruct (forallb allowed' _); [|left; split; reflexivity].
  match goal with
  | |- context [commit ?db1 ?new] =>
      destruct (commit_cases db1 new) as [[_ E']|[_ E']]; rewrite E'
  end; [|left; split; reflexivity].
  right. repeat split.
Qed.

End Creating.

(** ** Loading the pages *)

Section Loading.

Variable message : response_error -> string.

(** X18.  Under the policies of the migrations the room page never gets a
    level.  For every caller, room and state, [fetchRoomData] ends with an
    error message set and leaves the current level, the code in the editor
    and the participant list as they were: signed out no room is found, and
    signed in the read of the active level fails, since the policy of
    [public.levels] reads [public.room_participants], whose own policy reads
    the same table. *)
Theorem room_page_never_loads_a_level (user : session) (id : uuid)
    (st : RoomData.state) (db : Db) :
  let st' := RoomData.fetchRoomData message migration_policies user id st db in
  (exists e, Room.error (RoomData.editor st') = message e)
  /\ Room.currentLevel (RoomData.editor st') = Room.currentLevel (RoomData.editor st)
  /\ Room.code (RoomData.editor st') = Room.code (RoomData.editor st)
  /\ RoomData.participants st' = RoomData.participants st.
Proof.
  cbv zeta. unfold RoomData.fetchRoomData.
  destruct user as [U|].
  - rewrite select_rooms.
    destruct (filter _ (public_rooms db)) as [|r [|r' rest]]; cbn [single_row].
    + repeat split. eexists. reflexivity.
    + rewrite levels_cannot_be_read. cbn [single_row].
      repeat split. eexists. reflexivity.
    + repeat split. eexists. reflexivity.
  - rewrite anonymous_finds_no_room. cbn [single_row].
    repeat split. eexists. reflexivity.
Qed.

(** X19.  What the room page loads where the policies let it read.  Whatever
    the policies, after [fetchRoomData] the current level is the one from
    before, or it is a stored level of the room of the route with status
    'active' that is the only such level the caller sees, and the editor
    holds its starter code.  With no active level in sight, or with two,
    the page keeps the level it had. *)
Theorem room_page_loads_the_single_active_level (pol : policies) (user : session)
    (id : uuid) (st : RoomData.state) (db : Db) :
  let st' := RoomData.fetchRoomData message pol user id st db in
  (Room.currentLevel (RoomData.editor st') = Room.currentLevel (RoomData.editor st)
   /\ Room.code (RoomData.editor st') = Room.code (RoomData.editor st))
  \/ exists l,
       Room.currentLevel (RoomData.editor st') = Some l
       /\ Room.code (RoomData.editor st') = levels.initial_code l
       /\ In l (public_levels db)
       /\ levels.room_id l = id
       /\ levels.status l = "active"
       /\ select pol user Levels
            (fun l => (levels.room_id l =? id) && (levels.status l =? "active")) db
          = Some [l].
Proof.
  cbv zeta. unfold RoomData.fetchRoomData.
  destruct (single_row (select pol user Rooms _ db)) as [roomData|e];
    [|left; split; reflexivity].
  destruct (select pol user Levels _ db) as [[|l [|l' rest]]|] eqn:S;
    cbn [single_row]; try (left; split; reflexivity).
  right. exists l.
  assert (inl : In l (public_levels db)
                /\ (levels.room_id l =? id) && (levels.status l =? "active") = true).
  { unfold select in S.
    destruct (rls pol user db Levels [SELECT]) as [visible|]; [|discriminate].
    inversion S as [S']. clear S.
    pose proof (eq_ind_r (fun rows => In l rows) (in_eq l []) S') as H.
    cbv beta in H. apply filter_In in H. destruct H as [H1 H2].
    apply andb_prop in H2. destruct H2 as [_ H2]. split; assumption. }
  destruct inl as [inl cond]. apply andb_prop in cond. destruct cond as [c1 c2].
  apply String.eqb_eq in c1. apply String.eqb_eq in c2.
  destruct (RoomData.select_participants pol user id db);
    cbn; repeat split; auto.
Qed.

(** X20.  Under the policies of the migrations the admin page never lists a
    room.  The query of [fetchRooms] embeds a count over
    [public.room_participants], the read of which fails for every signed-in
    user; the list of the page stays as it was and the error is set.  So the
    page never shows the button that calls [toggleRoomStatus]. *)
Theorem admin_page_never_lists_a_room (uid : uuid) (st : AdminRooms.state) (db : Db) :
  AdminRooms.fetchRooms message migration_policies uid st db
  = AdminRooms.setError (message (database_error infinite_recursion_in_policy)) st.
Proof.
  unfold AdminRooms.fetchRooms.
  rewrite participants_cannot_be_read, select_rooms. reflexivity.
Qed.

End Loading.

(** ** What the admin page does to the dashboard *)

Section Administering.

Variable message : response_error -> string.

Lemma create_room_stores_at_most_the_room (user : session)
    (d d1 d2 d3 : defaults) (st : AdminRooms.state) (db : Db) :
  fst (AdminRooms.createRoom message migration_policies user d d1 d2 d3 st db) = db
  \/ exists room,
       rooms.status room = "waiting"
       /\ fst (AdminRooms.createRoom message migration_policies user d d1 d2 d3 st db)
          = with_rooms (public_rooms db ++ [room]) db.
Proof.
  unfold AdminRooms.createRoom.
  destruct user as [uid|]; [|left; reflexivity].
  unfold insert_returning.
  destruct (rls migration_policies (Some uid) db Rooms [INSERT; SELECT])
    as [allowed|]; [|left; reflexivity].
  destruct (allowed _); [|left; reflexivity].
  match goal with
  | |- context [commit db ?new] =>
      destruct (commit_cases db new) as [[_ E]|[_ E]]; rewrite E
  end; [|left; reflexivity].
  right. eexists. split; [|unfold AdminRooms.default_levels;
                           rewrite levels_cannot_be_inserted; reflexivity].
  reflexivity.
Qed.

Lemma toggles_are_without_effect (toggles : list (session * string * string))
    (db : Db) :
  fold_left (fun db t =>
               AdminDashboard.toggleRoomStatus migration_policies
                 (fst (fst t)) (snd (fst t)) (snd t) db)
            toggles db = db.
Proof.
  revert db. induction toggles as [|t rest IH]; intros db; simpl; [reflexivity|].
  rewrite toggle_is_without_effect. apply IH.
Qed.

(** X21.  Nothing done on the admin page shows on the dashboard.  Create a
    room and then press start and pause, on any rooms, any number of times,
    as anybody: the list of active rooms that the dashboard query returns,
    to whoever asks, is what it was before.  A room created through the
    page is never listed as active. *)
Theorem admin_page_never_activates_a_room (viewer user : session)
    (d d1 d2 d3 : defaults) (st : AdminRooms.state)
    (toggles : list (session * string * string)) (db : Db) :
  DashboardData.active_rooms migration_policies viewer
    (fold_left (fun db t =>
                  AdminDashboard.toggleRoomStatus migration_policies
                    (fst (fst t)) (snd (fst t)) (snd t) db)
               toggles
               (fst (AdminRooms.createRoom message migration_policies user
                       d d1 d2 d3 st db)))
  = DashboardData.active_rooms migration_policies viewer db.
Proof.
  rewrite toggles_are_without_effect.
  destruct (create_room_stores_at_most_the_room user d d1 d2 d3 st db)
    as [->|(room & waiting & ->)]; [reflexivity|].
  unfold DashboardData.active_rooms. f_equal.
  destruct viewer as [V|].
  - rewrite !select_rooms. cbn [with_rooms public_rooms]. f_equal.
    rewrite filter_app. cbn [filter]. rewrite waiting. cbn.
    apply app_nil_r.
  - rewrite !anonymous_finds_no_room. reflexivity.
Qed.

End Administering.

(** ** Reading submissions back *)

Section Reading.

Variable new_Function : string -> string -> Room.completion Room.js_function.

(** X23.  A submission is read back by its author and by nobody else.
    After a passing run of U, a read of [public.submissions] by U returns
    what it returned before followed by the new row, and a read by any
    other user V returns what it returned before. *)
Theorem own_submission_is_read_back (U V : uuid) (d : defaults)
    (st : Room.state) (db : Db) (level : levels.row)
    (results : list Room.TestResult) :
  U <> V ->
  Room.currentLevel st = Some level ->
  Room.map_returning (Room.run_test new_Function (Room.code st))
                     (levels.test_cases level) = Some results ->
  forallb Room.passed results = true ->
  consistent db = true ->
  existsb (fun x => submissions.id x =? gen_random_uuid d)
          (public_submissions db) = false ->
  existsb (fun u => users.id u =? U) (public_users db) = true ->
  existsb (fun l => levels.id l =? levels.id level) (public_levels db) = true ->
  exists db' st',
    Room.runTests new_Function migration_policies (Some U) d st db = Some (db', st')
    /\ select migration_policies (Some U) Submissions (fun _ => true) db'
       = option_map
           (fun mine =>
              mine ++ [submissions.mk (gen_random_uuid d) U (levels.id level)
                         (Room.code st) "completed" (Some 100%Z) (Some (now d))])%list
           (select migration_policies (Some U) Submissions (fun _ => true) db)
    /\ select migration_policies (Some V) Submissions (fun _ => true) db'
       = select migration_policies (Some V) Submissions (fun _ => true) db.
Proof.
  intros other current finished pass ok fresh profile stored.
  do 2 eexists. split; [|split].
  - apply passing_run with (level := level) (results := results); auto.
  - rewrite !select_submissions. cbn [option_map with_submissions public_submissions].
    rewrite filter_app. cbn. rewrite String.eqb_refl. reflexivity.
  - rewrite !select_submissions. cbn [with_submissions public_submissions].
    rewrite filter_app. cbn.
    apply String.eqb_neq in other. rewrite other. cbn.
    rewrite app_nil_r. reflexivity.
Qed.

End Reading.

(** ** The properties above on the scenarios *)

Lemma running_tests_touches_submissions_only_witness :
  exists db' st',
    Room.runTests Scenario.host migration_policies (Some Scenario.alice)
      Scenario.drawn (Scenario.room_page Scenario.cascade_source) Scenario.playing
    = Some (db', st')
    /\ public_users db' = public_users Scenario.playing
    /\ public_rooms db' = public_rooms Scenario.playing
    /\ public_room_participants db' = public_room_participants Scenario.playing
    /\ public_levels db' = public_levels Scenario.playing
    /\ (public_submissions db' = public_submissions Scenario.playing
        \/ exists row,
             public_submissions db'
             = (public_submissions Scenario.playing ++ [row])%list
             /\ submissions.status row = "completed"
             /\ submissions.points row = Some 100%Z
             /\ Some (submissions.user_id row) = Some Scenario.alice)
    /\ Room.isRunning st' = false.
Proof.
  do 2 eexists. split; [reflexivity|].
  apply (@running_tests_touches_submissions_only Scenario.host migration_policies
           (Some Scenario.alice) Scenario.drawn
           (Scenario.room_page Scenario.cascade_source)).
  reflexivity.
Defined.

Lemma level_without_tests_accepts_anything_witness :
  exists st',
    Room.runTests Scenario.host migration_policies (Some Scenario.alice)
      Scenario.drawn (Walkthrough.bare_page "this does not parse")
      Walkthrough.with_bare_level
    = Some (with_submissions
              [submissions.mk "eeeeeeee-0001" Scenario.alice "cccccccc-0004"
                 "this does not parse" "completed" (Some 100%Z) (Some 50%Z)]
              Walkthrough.with_bare_level,
            st')
    /\ Room.testResults st' = [].
Proof.
  apply (@level_without_tests_accepts_anything Scenario.host Scenario.alice
           Scenario.drawn (Walkthrough.bare_page "this does not parse")
           Walkthrough.with_bare_level Walkthrough.bare_level);
    reflexivity.
Defined.


Lemma passing_twice_writes_two_submissions_witness :
  exists db1 st1 db2 st2,
    Room.runTests Scenario.host migration_policies (Some Scenario.alice)
      Scenario.drawn (Scenario.room_page Scenario.cascade_source) Scenario.playing
    = Some (db1, st1)
    /\ Room.runTests Scenario.host migration_policies (Some Scenario.alice)
         Walkthrough.drawn_again (Scenario.room_page Scenario.cascade_source) db1
       = Some (db2, st2)
    /\ public_submissions db2
       = (public_submissions Scenario.playing
            ++ [ submissions.mk "eeeeeeee-0001" Scenario.alice "cccccccc-0001"
                   Scenario.cascade_source "completed" (Some 100%Z) (Some 50%Z);
                 submissions.mk "eeeeeeee-0002" Scenario.alice "cccccccc-0001"
                   Scenario.cascade_source "completed" (Some 100%Z) (Some 60%Z) ])%list.
Proof.
  apply (@passing_twice_writes_two_submissions Scenario.host Scenario.alice
           Scenario.drawn Walkthrough.drawn_again
           (Scenario.room_page Scenario.cascade_source) Scenario.playing
           (levels.set_status "active" Scenario.level_1)
           [ {| Room.passed := true; Room.message := Room.JSString "Test passed!";
                Room.output := Some (Room.JSString (Scenario.cascade "hello")) |};
             {| Room.passed := true; Room.message := Room.JSString "Test passed!";
                Room.output := Some (Room.JSString (Scenario.cascade "neo")) |} ]);
    try reflexivity.
  discriminate.
Defined.

Lemma own_submission_is_read_back_witness :
  exists db' st',
    Room.runTests Scenario.host migration_policies (Some Scenario.alice)
      Scenario.drawn (Scenario.room_page Scenario.cascade_source) Scenario.playing
    = Some (db', st')
    /\ select migration_policies (Some Scenario.alice) Submissions (fun _ => true) db'
       = option_map
           (fun mine =>
              mine ++ [submissions.mk "eeeeeeee-0001" Scenario.alice "cccccccc-0001"
                         Scenario.cascade_source "completed" (Some 100%Z)
                         (Some 50%Z)])%list
           (select migration_policies (Some Scenario.alice) Submissions
              (fun _ => true) Scenario.playing)
    /\ select migration_policies (Some Scenario.bob) Submissions (fun _ => true) db'
       = select migration_policies (Some Scenario.bob) Submissions (fun _ => true)
           Scenario.playing.
Proof.
  apply (@own_submission_is_read_back Scenario.host Scenario.alice Scenario.bob
           Scenario.drawn (Scenario.room_page Scenario.cascade_source)
           Scenario.playing (levels.set_status "active" Scenario.level_1)
           [ {| Room.passed := true; Room.message := Room.JSString "Test passed!";
                Room.output := Some (Room.JSString (Scenario.cascade "hello")) |};
             {| Room.passed := true; Room.message := Room.JSString "Test passed!";
                Room.output := Some (Room.JSString (Scenario.cascade "neo")) |} ]);
    try reflexivity.
  discriminate.
Defined.

Lemma registration_stores_one_profile_witness :
  let registered :=
    store Users
      (public_users Scenario.seeded
         ++ [users.mk Scenario.carol "carol" (Some 0%Z) (Some 1%Z) (Some 70%Z)])
      Scenario.seeded in
  Register.handleSubmit Walkthrough.message migration_policies None
    (AuthContext.authData (Some Scenario.carol) true) 70%Z "carol"
    Walkthrough.register_form Scenario.seeded
  = (registered,
     {| Register.error := ""; Register.location := "/dashboard" |})
  /\ Dashboard.top_users migration_policies (Some Scenario.carol) registered
     = Some [("carol", Some 0%Z)].
Proof.
  apply (@registration_stores_one_profile Walkthrough.message None Scenario.carol
           70%Z "carol" Walkthrough.register_form Scenario.seeded);
    reflexivity.
Defined.

Lemma taken_username_leaves_identity_without_profile_witness :
  exists e,
    Register.handleSubmit Walkthrough.message migration_policies None
      (AuthContext.authData (Some Scenario.carol) true) 70%Z "alice"
      Walkthrough.register_form Scenario.seeded
    = (Scenario.seeded,
       {| Register.error := Walkthrough.message (database_error e);
          Register.location := "/register" |}).
Proof.
  apply (@taken_username_leaves_identity_without_profile Walkthrough.message
           migration_policies None Scenario.carol true 70%Z "alice"
           Walkthrough.register_form Scenario.seeded).
  reflexivity.
Defined.

Lemma registration_needs_a_session_witness :
  exists id started,
    AuthContext.authData (Some Scenario.carol) true
    = AuthContext.authData (Some id) started
    /\ (started = true \/ None = Some id).
Proof.
  apply (@registration_needs_a_session Walkthrough.message None
           (AuthContext.authData (Some Scenario.carol) true)
           (AuthContext.authData (Some Scenario.carol) true)
           70%Z "carol" Scenario.seeded
           (store Users
              (public_users Scenario.seeded
                 ++ [users.mk Scenario.carol "carol" (Some 0%Z) (Some 1%Z) (Some 70%Z)])
              Scenario.seeded)).
  reflexivity.
Defined.

(** With the address awaiting confirmation: no session, no profile. *)
Example carol_awaits_confirmation :
  AuthContext.signUp Walkthrough.message migration_policies None
    (AuthContext.authData (Some Scenario.carol) false) 70%Z "carol" Scenario.seeded
  = (Scenario.seeded,
     AuthContext.Thrown
       "new row violates row-level security policy for table users").
Proof. vm_compute. reflexivity. Qed.

Lemma created_room_has_no_levels_witness :
  AdminRooms.createRoom Walkthrough.message migration_policies (Some Scenario.bob)
    Scenario.drawn Walkthrough.drawn_again Walkthrough.drawn_again
    Walkthrough.drawn_again (Walkthrough.admin_form "Trilogy" "NEW001")
    Scenario.seeded
  = (with_rooms
       (public_rooms Scenario.seeded
          ++ [rooms.mk "eeeeeeee-0001" "NEW001" "Trilogy" "waiting" Scenario.bob
                (Some 50%Z)])
       Scenario.seeded,
     AdminRooms.setError
       (Walkthrough.message (database_error (row_level_security "levels")))
       (Walkthrough.admin_form "Trilogy" "NEW001")).
Proof.
  apply (@created_room_has_no_levels Walkthrough.message Scenario.bob
           Scenario.drawn Walkthrough.drawn_again Walkthrough.drawn_again
           Walkthrough.drawn_again (Walkthrough.admin_form "Trilogy" "NEW001")
           Scenario.seeded);
    reflexivity.
Defined.
